(** * ProcessManager (code/userprog/processmanager.cc)

    A shallow embedding of the Nachos process manager: PID allocation and
    recycling over a bitmap, the PCB registry, the join protocol on a
    per-PID lock and condition variable, broadcast and the status query.

    Conventions of the model.
    - A C++ [int] is a [Z].  The counters move by one per call and signed
      overflow is undefined in C++, so the arithmetic is not wrapped.
    - The arrays indexed by PID ([processesWaitingOnPID], [pcbStatuses],
      [pcbList], [lockList], [conditionList]) are functions on [Z]: a cell
      per index, as the code addresses them.  Their declared sizes are in
      processmanager.h; an index outside them addresses the memory next to
      the array, which the model keeps as one more cell.
    - A pointer to a PCB is an address ([ptr]) into [pcbMem], the memory
      that holds the [status] field of every PCB, so that the registry and
      the running thread can point at the same PCB.  NULL is [None].
    - Every call on a lock or a condition variable, and every store into
      the two shared int arrays, is recorded in the trace an operation
      returns, in program order.
    - The diagnostic [fprintf] calls only read [getStatus] and the waiter
      count; they are left out, and so are [addrSpaceList] and
      [numAvailPIDs], which the constructor sets and nothing else in the
      file reads or writes. *)

From Stdlib Require Import ZArith List Bool Lia String.
Import ListNotations.
Local Open Scope Z_scope.

(** ** Identifier space *)

Module BitMap.

(** Modelled from the spec: the BitMap class (bitmap.h and bitmap.cc are
    not among the files verified here).  The spec describes it as "a
    fixed-capacity set abstraction supporting find-first-free, clear, and
    test-membership over integers [0, MAX_PROCESSES)", with
    "find-first-free() -> index | exhausted" returning "the
    lowest-numbered free identifier" and marking it allocated.  One bit
    per identifier.  The set holds identifiers of the range only: outside
    it [Test] answers false and [Mark] and [Clear] do nothing.  [Find]
    hands its answer back as an [int]; the one that stands for
    "exhausted" is [NONE], which is no identifier of any range. *)
Definition t := list bool.

Definition NONE : Z := -1.

Definition create (nitems : nat) : t := repeat false nitems.

Definition numBits (b : t) : Z := Z.of_nat (List.length b).

Fixpoint set_bit (n : nat) (v : bool) (b : t) : t :=
  match b, n with
  | [], _ => []
  | _ :: r, O => v :: r
  | x :: r, S m => x :: set_bit m v r
  end.

Fixpoint first_clear (b : t) : option nat :=
  match b with
  | [] => None
  | x :: r => if x then option_map S (first_clear r) else Some O
  end.

Definition Test (which : Z) (b : t) : bool :=
  if which <? 0 then false else nth (Z.to_nat which) b false.

Definition Mark (which : Z) (b : t) : t :=
  if which <? 0 then b else set_bit (Z.to_nat which) true b.

Definition Clear (which : Z) (b : t) : t :=
  if which <? 0 then b else set_bit (Z.to_nat which) false b.

Definition Find (b : t) : Z * t :=
  match first_clear b with
  | Some i => (Z.of_nat i, set_bit i true b)
  | None => (NONE, b)
  end.

Definition full (b : t) : Prop := first_clear b = None.

End BitMap.

(** ** Synchronisation objects and PCBs *)

Inductive Lock := Lock_new (debugName : string).
Inductive Condition := Condition_new (debugName : string).

Definition ptr := nat.

(** What an operation does to the objects other threads share with it. *)
Inductive Event :=
| EvNewLock (pid : Z)        (* lockList[pid] = new Lock *)
| EvNewCondition (pid : Z)   (* conditionList[pid] = new Condition *)
| EvAcquire (pid : Z)        (* lockList[pid]->Acquire() *)
| EvRelease (pid : Z)        (* lockList[pid]->Release() *)
| EvWait (pid : Z)           (* conditionList[pid]->Wait(lockList[pid]) *)
| EvBroadcast (pid : Z)      (* conditionList[pid]->Broadcast(lockList[pid]) *)
| EvWaiters (pid : Z)        (* a store into processesWaitingOnPID[pid] *)
| EvStatus (pid : Z).        (* a store into pcbStatuses[pid] *)

Definition is_wait (e : Event) : bool :=
  match e with EvWait _ => true | _ => false end.

Definition is_sync (e : Event) : bool :=
  match e with
  | EvAcquire _ | EvRelease _ | EvWait _ | EvBroadcast _ => true
  | _ => false
  end.

(** ** The manager *)

Record State := mkState {
  processesBitMap : BitMap.t;
  pcbList : Z -> option ptr;
  conditionList : Z -> option Condition;
  lockList : Z -> option Lock;
  pcbStatuses : Z -> Z;
  processesWaitingOnPID : Z -> Z;
  pcbMem : ptr -> Z
}.

Definition upd {A : Type} (f : Z -> A) (k : Z) (v : A) : Z -> A :=
  fun x => if x =? k then v else f x.

Definition upd_mem (f : ptr -> Z) (k : ptr) (v : Z) : ptr -> Z :=
  fun x => if Nat.eqb x k then v else f x.

(** The constructor: an empty bitmap of [MAX_PROCESSES] bits and NULL in
    every slot of the pointer arrays.  It does not initialise the two int
    arrays, whose contents are therefore arguments. *)
Definition ProcessManager_new (MAX_PROCESSES : nat)
    (waiters0 statuses0 : Z -> Z) (mem : ptr -> Z) : State :=
  {| processesBitMap := BitMap.create MAX_PROCESSES;
     pcbList := fun _ => None;
     conditionList := fun _ => None;
     lockList := fun _ => None;
     pcbStatuses := statuses0;
     processesWaitingOnPID := waiters0;
     pcbMem := mem |}.

(** *** A state monad that also collects the trace *)

Definition M (A : Type) : Type := State -> A * State * list Event.

Definition ret {A : Type} (a : A) : M A := fun s => (a, s, []).

Definition bind {A B : Type} (m : M A) (k : A -> M B) : M B :=
  fun s =>
    let '(a, s1, t1) := m s in
    let '(b, s2, t2) := k a s1 in
    (b, s2, t1 ++ t2).

Notation "x <- m ;; k" := (bind m (fun x => k))
  (at level 61, m at next level, right associativity).
Notation "m ;; k" := (bind m (fun _ => k))
  (at level 61, right associativity).

Definition emit (e : Event) : M unit := fun s => (tt, s, [e]).

Definition gets {A : Type} (f : State -> A) : M A := fun s => (f s, s, []).

Definition state_of {A : Type} (r : A * State * list Event) : State :=
  snd (fst r).
Definition value_of {A : Type} (r : A * State * list Event) : A :=
  fst (fst r).
Definition trace_of {A : Type} (r : A * State * list Event) : list Event :=
  snd r.

Definition bitmap_Find : M Z := fun s =>
  let '(i, b) := BitMap.Find (processesBitMap s) in
  (i,
   mkState b (pcbList s) (conditionList s) (lockList s) (pcbStatuses s)
     (processesWaitingOnPID s) (pcbMem s),
   []).

Definition bitmap_Clear (which : Z) : M unit := fun s =>
  (tt,
   mkState (BitMap.Clear which (processesBitMap s)) (pcbList s)
     (conditionList s) (lockList s) (pcbStatuses s)
     (processesWaitingOnPID s) (pcbMem s),
   []).

Definition store_waiters (pid v : Z) : M unit := fun s =>
  (tt,
   mkState (processesBitMap s) (pcbList s) (conditionList s) (lockList s)
     (pcbStatuses s) (upd (processesWaitingOnPID s) pid v) (pcbMem s),
   [EvWaiters pid]).

Definition store_status (pid v : Z) : M unit := fun s =>
  (tt,
   mkState (processesBitMap s) (pcbList s) (conditionList s) (lockList s)
     (upd (pcbStatuses s) pid v) (processesWaitingOnPID s) (pcbMem s),
   [EvStatus pid]).

Definition store_pcb (pid : Z) (pcb : option ptr) : M unit := fun s =>
  (tt,
   mkState (processesBitMap s) (upd (pcbList s) pid pcb) (conditionList s)
     (lockList s) (pcbStatuses s) (processesWaitingOnPID s) (pcbMem s),
   []).

Definition store_lock (pid : Z) (l : Lock) : M unit := fun s =>
  (tt,
   mkState (processesBitMap s) (pcbList s) (conditionList s)
     (upd (lockList s) pid (Some l)) (pcbStatuses s)
     (processesWaitingOnPID s) (pcbMem s),
   [EvNewLock pid]).

Definition store_condition (pid : Z) (c : Condition) : M unit := fun s =>
  (tt,
   mkState (processesBitMap s) (pcbList s)
     (upd (conditionList s) pid (Some c)) (lockList s) (pcbStatuses s)
     (processesWaitingOnPID s) (pcbMem s),
   [EvNewCondition pid]).

(** [pcb->status = v] through a PCB pointer. *)
Definition store_pcb_status (pcb : ptr) (v : Z) : M unit := fun s =>
  (tt,
   mkState (processesBitMap s) (pcbList s) (conditionList s) (lockList s)
     (pcbStatuses s) (processesWaitingOnPID s) (upd_mem (pcbMem s) pcb v),
   []).

(** *** ProcessManager::getStatus *)

Definition GONE : Z := -1.

Definition getStatus (pid : Z) (s : State) : Z :=
  if negb (BitMap.Test pid (processesBitMap s)) then GONE
  else pcbStatuses s pid.

(** *** ProcessManager::getPID *)

Definition getPID : M Z :=
  newPID <- bitmap_Find ;;
  store_waiters newPID 0 ;;
  w <- gets (fun s => processesWaitingOnPID s newPID) ;;
  store_waiters newPID (w + 1) ;;
  ret newPID.

(** *** ProcessManager::clearPID *)

Definition clearPID (pid : Z) : M unit :=
  w <- gets (fun s => processesWaitingOnPID s pid) ;;
  store_waiters pid (w - 1) ;;
  w' <- gets (fun s => processesWaitingOnPID s pid) ;;
  if w' =? 0 then bitmap_Clear pid else ret tt.

(** *** ProcessManager::addProcess *)

Definition addProcess (pcb : option ptr) (pid : Z) : M unit :=
  store_pcb pid pcb.

(** *** ProcessManager::broadcast

    [pcbList[pid]->status] dereferences the registered pointer: with NULL
    in the slot the call has no defined result ([None]). *)

Definition broadcast (pid : Z) (s : State) : option (unit * State * list Event) :=
  match pcbList s pid with
  | None => None
  | Some pcb =>
      Some ((lock <- gets (fun s => lockList s pid) ;;
             condition <- gets (fun s => conditionList s pid) ;;
             status <- gets (fun s => pcbMem s pcb) ;;
             store_status pid status ;;
             match condition with
             | Some _ => emit (EvBroadcast pid)
             | None => ret tt
             end) s)
  end.

(** *** ProcessManager::join

    [Wait] suspends the caller and lets the other threads run.  What they
    do to the manager while the caller sleeps is the schedule: one state
    transformer per wakeup, of any kind, so that a wakeup may come with the
    status changed or unchanged.  When the schedule runs out while the
    caller is still inside [Wait], the call has not returned ([Blocked]).
    [Acquire] is taken to succeed at once: the other joiners are suspended
    in [Wait], which has released the lock. *)

Inductive Outcome :=
| Returned (s : State) (tr : list Event)
| Blocked (s : State) (tr : list Event).

Definition Schedule := list (State -> State).

Definition after (tr : list Event) (o : Outcome) : Outcome :=
  match o with
  | Returned s t => Returned s (tr ++ t)
  | Blocked s t => Blocked s (tr ++ t)
  end.

(** The state the caller finds at its [k]-th wakeup. *)
Definition woken (k : nat) (sched : Schedule) (s : State) : State :=
  fold_left (fun st other => other st) (firstn k sched) s.

Section Join.

(** The two status codes of pcb.h that [join] writes into the PCB of its
    caller; pcb.h is not among the files verified here, so their values
    are left open. *)
Variables P_RUNNING P_BLOCKED : Z.

(** while (getStatus(pid) != -1) conditionForOtherProcess->Wait(lock); *)
Fixpoint wait_loop (pid : Z) (sched : Schedule) (s : State) : Outcome :=
  if getStatus pid s =? -1 then Returned s []
  else
    match sched with
    | [] => Blocked s [EvWait pid]
    | other :: rest => after [EvWait pid] (wait_loop pid rest (other s))
    end.

(** From the entry of [join] to the test [pid != 0]. *)
Definition join_enter (pid : Z) (cur : ptr) : M unit :=
  lockForOtherProcess <- gets (fun s => lockList s pid) ;;
  match lockForOtherProcess with
  | None => store_lock pid (Lock_new EmptyString)
  | Some _ => ret tt
  end ;;
  conditionForOtherProcess <- gets (fun s => conditionList s pid) ;;
  match conditionForOtherProcess with
  | None => store_condition pid (Condition_new EmptyString)
  | Some _ => ret tt
  end ;;
  emit (EvAcquire pid) ;;
  w <- gets (fun s => processesWaitingOnPID s pid) ;;
  store_waiters pid (w + 1) ;;
  store_pcb_status cur P_BLOCKED.

(** From the end of the wait loop to the return of [join]. *)
Definition join_leave (pid : Z) (cur : ptr) : M unit :=
  store_pcb_status cur P_RUNNING ;;
  w <- gets (fun s => processesWaitingOnPID s pid) ;;
  store_waiters pid (w - 1) ;;
  w' <- gets (fun s => processesWaitingOnPID s pid) ;;
  (if w' =? 0 then bitmap_Clear pid else ret tt) ;;
  emit (EvRelease pid).

(** [cur] is the PCB of the calling thread
    ([currentThread->space->getPCB()]). *)
Definition join (pid : Z) (cur : ptr) (sched : Schedule) (s : State)
    : Outcome :=
  let '(_, s1, tr1) := join_enter pid cur s in
  match (if negb (pid =? 0) then wait_loop pid sched s1
         else Returned s1 []) with
  | Blocked s2 tr2 => Blocked s2 (tr1 ++ tr2)
  | Returned s2 tr2 =>
      let '(_, s3, tr3) := join_leave pid cur s2 in
      Returned s3 (tr1 ++ tr2 ++ tr3)
  end.

(** *** Atomic steps

    The pieces of the operations between which no other thread runs:
    the calls that do not suspend, the two halves of [join] around its
    wait loop, and the owner of a PCB writing its status field. *)
Inductive Step :=
| SGetPID
| SClearPID (pid : Z)
| SAddProcess (pcb : option ptr) (pid : Z)
| SBroadcast (pid : Z)
| SJoinEnter (pid : Z) (cur : ptr)
| SJoinLeave (pid : Z) (cur : ptr)
| SSetStatus (pcb : ptr) (v : Z).

Definition step (st : Step) (s : State) : State :=
  match st with
  | SGetPID => state_of (getPID s)
  | SClearPID pid => state_of (clearPID pid s)
  | SAddProcess pcb pid => state_of (addProcess pcb pid s)
  | SBroadcast pid =>
      match broadcast pid s with Some r => state_of r | None => s end
  | SJoinEnter pid cur => state_of (join_enter pid cur s)
  | SJoinLeave pid cur => state_of (join_leave pid cur s)
  | SSetStatus pcb v => state_of (store_pcb_status pcb v s)
  end.

Definition run (l : list Step) (s : State) : State :=
  fold_left (fun st x => step x st) l s.

(** *** Lock discipline of a trace

    [guarded held tr]: every store into [processesWaitingOnPID[pid]] in
    [tr] happens while the lock of [pid] is held, [held] being the locks
    held when the trace starts.  [Wait] gives the lock up and has it
    again when it returns. *)
Fixpoint guarded (held : list Z) (tr : list Event) : bool :=
  match tr with
  | [] => true
  | EvAcquire p :: r => guarded (p :: held) r
  | EvRelease p :: r => guarded (List.remove Z.eq_dec p held) r
  | EvWaiters p :: r => existsb (Z.eqb p) held && guarded held r
  | _ :: r => guarded held r
  end.

Definition outcome_trace (o : Outcome) : list Event :=
  match o with Returned _ tr | Blocked _ tr => tr end.

Definition member (pid : Z) (s : State) : bool :=
  BitMap.Test pid (processesBitMap s).

(** Every allocated PID has a waiter count of at least one. *)
Definition counted (s : State) : Prop :=
  forall pid, member pid s = true -> 1 <= processesWaitingOnPID s pid.

(** [k] calls of [getPID] in a row: the PIDs in the order returned. *)
Fixpoint allocate_n (k : nat) (s : State) : list Z * State :=
  match k with
  | O => ([], s)
  | S k' =>
      let '(pid, s1, _) := getPID s in
      let '(pids, s2) := allocate_n k' s1 in
      (pid :: pids, s2)
  end.

(** The objects [join] creates on its way in. *)
Definition new_objects (pid : Z) (s : State) : list Event :=
  match lockList s pid with None => [EvNewLock pid] | Some _ => [] end ++
  match conditionList s pid with
  | None => [EvNewCondition pid]
  | Some _ => []
  end.

(** What another thread does when it calls [clearPID(pid)] while the
    caller of [join] sleeps. *)
Definition release (pid : Z) : State -> State :=
  fun s => state_of (clearPID pid s).

(** *** States used in the examples *)

(** A new manager of two PIDs, with zeroes in the int arrays and in the
    status field of every PCB. *)
Definition fresh2 : State :=
  ProcessManager_new 2 (fun _ => 0) (fun _ => 0) (fun _ => 0).

(** PIDs 0 and 1 allocated. *)
Definition two_live : State := state_of (getPID (state_of (getPID fresh2))).

(** A wakeup that finds nothing changed, then one after PID 1 has been
    released twice. *)
Definition wake_then_release : Schedule :=
  [fun s => s; fun s => state_of (clearPID 1 (state_of (clearPID 1 s)))].

(** PID 0 allocated and released. *)
Definition released_once : State :=
  state_of (clearPID 0 (state_of (getPID fresh2))).

(** PID 0 allocated, with the PCB at address 5 registered for it. *)
Definition registered : State :=
  state_of (addProcess (Some 5%nat) 0 (state_of (getPID fresh2))).

(** The owner of that PCB has set its status to -1 ... *)
Definition exited : State :=
  state_of (store_pcb_status 5%nat (-1) registered).

(** ... and called [broadcast(0)]. *)
Definition exited_cached : State :=
  match broadcast 0 exited with
  | Some r => state_of r
  | None => exited
  end.

(** PIDs 0 and 1 allocated; the PCB at address 5 is registered for PID 1,
    its owner has set its status to -1 and called [broadcast(1)]. *)
Definition finished_one : State :=
  match
    broadcast 1
      (state_of (store_pcb_status 5%nat (-1)
                   (state_of (addProcess (Some 5%nat) 1 two_live))))
  with
  | Some r => state_of r
  | None => two_live
  end.

(** ** The identifier space *)

Lemma upd_same {A : Type} (f : Z -> A) k v : upd f k v k = v.
Proof. unfold upd. now rewrite Z.eqb_refl. Qed.

Lemma upd_other {A : Type} (f : Z -> A) k v x : x <> k -> upd f k v x = f x.
Proof. unfold upd. intros H. apply Z.eqb_neq in H. now rewrite H. Qed.

Lemma nth_set_bit_same n v b :
  (n < List.length b)%nat -> nth n (BitMap.set_bit n v b) false = v.
Proof.
  revert n. induction b as [|x r IH]; intros [|n] H; cbn in *; try lia.
  - reflexivity.
  - apply IH. lia.
Qed.

Lemma nth_set_bit_other n m v b :
  n <> m -> nth m (BitMap.set_bit n v b) false = nth m b false.
Proof.
  revert n m. induction b as [|x r IH]; intros [|n] [|m] H; cbn;
    try reflexivity; try congruence.
  apply IH. congruence.
Qed.

Lemma length_set_bit n v b :
  List.length (BitMap.set_bit n v b) = List.length b.
Proof.
  revert n. induction b as [|x r IH]; intros [|n]; cbn; try reflexivity.
  now rewrite IH.
Qed.

Lemma Test_Clear_same pid b : BitMap.Test pid (BitMap.Clear pid b) = false.
Proof.
  unfold BitMap.Test, BitMap.Clear. destruct (pid <? 0); [reflexivity|].
  destruct (Nat.lt_ge_cases (Z.to_nat pid) (List.length b)) as [H|H].
  - now apply nth_set_bit_same.
  - apply nth_overflow. now rewrite length_set_bit.
Qed.

Lemma Test_Clear_other pid q b :
  q <> pid -> BitMap.Test q (BitMap.Clear pid b) = BitMap.Test q b.
Proof.
  intros H. unfold BitMap.Test, BitMap.Clear.
  destruct (q <? 0) eqn:Hq; [reflexivity|].
  destruct (pid <? 0) eqn:Hp; [reflexivity|].
  apply nth_set_bit_other. apply Z.ltb_ge in Hq, Hp. lia.
Qed.

Lemma first_clear_Some b i :
  BitMap.first_clear b = Some i ->
  (i < List.length b)%nat /\ nth i b false = false /\
  forall j, (j < i)%nat -> nth j b false = true.
Proof.
  revert i. induction b as [|x r IH]; intros i H; cbn in H; [discriminate|].
  destruct x.
  - destruct (BitMap.first_clear r) as [k|] eqn:E; cbn in H; [|discriminate].
    injection H as <-. destruct (IH k eq_refl) as (H1 & H2 & H3).
    cbn. repeat split; [lia | assumption |].
    intros [|j] Hj; [reflexivity|]. apply H3. lia.
  - injection H as <-. cbn. repeat split; [lia|]. intros j Hj. lia.
Qed.

Lemma first_clear_None b :
  BitMap.first_clear b = None ->
  forall j, (j < List.length b)%nat -> nth j b false = true.
Proof.
  induction b as [|x r IH]; intros H j Hj; cbn in *; [lia|].
  destruct x; [|discriminate].
  destruct (BitMap.first_clear r) eqn:E; cbn in H; [discriminate|].
  destruct j as [|j]; [reflexivity|]. apply IH; [reflexivity | lia].
Qed.

Lemma first_clear_fill k r :
  BitMap.first_clear (repeat true k ++ false :: r) = Some k.
Proof. induction k as [|k IH]; cbn; [reflexivity|]. now rewrite IH. Qed.

Lemma first_clear_all_set k : BitMap.first_clear (repeat true k) = None.
Proof. induction k as [|k IH]; cbn; [reflexivity|]. now rewrite IH. Qed.

Lemma set_bit_fill k r :
  BitMap.set_bit k true (repeat true k ++ false :: r)
  = repeat true k ++ true :: r.
Proof. induction k as [|k IH]; cbn; [reflexivity|]. now rewrite IH. Qed.

(** ** The operations, field by field *)

Ltac run_op :=
  unfold getPID, clearPID, addProcess, join_enter, join_leave, bind, gets,
    emit, ret, store_waiters, store_status, store_pcb, store_lock,
    store_condition, store_pcb_status, bitmap_Find, bitmap_Clear,
    state_of, value_of, trace_of;
  cbn.

Lemma getPID_eq s :
  getPID s =
  (fst (BitMap.Find (processesBitMap s)),
   mkState (snd (BitMap.Find (processesBitMap s))) (pcbList s)
     (conditionList s) (lockList s) (pcbStatuses s)
     (upd (upd (processesWaitingOnPID s)
             (fst (BitMap.Find (processesBitMap s))) 0)
        (fst (BitMap.Find (processesBitMap s))) 1)
     (pcbMem s),
   [EvWaiters (fst (BitMap.Find (processesBitMap s)));
    EvWaiters (fst (BitMap.Find (processesBitMap s)))]).
Proof.
  run_op. destruct (BitMap.Find (processesBitMap s)) as [i b]. cbn.
  now rewrite upd_same.
Qed.

Lemma clearPID_eq pid s :
  clearPID pid s =
  (tt,
   mkState
     (if processesWaitingOnPID s pid =? 1
      then BitMap.Clear pid (processesBitMap s) else processesBitMap s)
     (pcbList s) (conditionList s) (lockList s) (pcbStatuses s)
     (upd (processesWaitingOnPID s) pid (processesWaitingOnPID s pid - 1))
     (pcbMem s),
   [EvWaiters pid]).
Proof.
  run_op. rewrite upd_same.
  replace (processesWaitingOnPID s pid - 1 =? 0)
    with (processesWaitingOnPID s pid =? 1)
    by (destruct (Z.eqb_spec (processesWaitingOnPID s pid) 1),
          (Z.eqb_spec (processesWaitingOnPID s pid - 1) 0); lia || reflexivity).
  destruct (processesWaitingOnPID s pid =? 1); reflexivity.
Qed.

Lemma join_leave_eq pid cur s :
  join_leave pid cur s =
  (tt,
   mkState
     (if processesWaitingOnPID s pid =? 1
      then BitMap.Clear pid (processesBitMap s) else processesBitMap s)
     (pcbList s) (conditionList s) (lockList s) (pcbStatuses s)
     (upd (processesWaitingOnPID s) pid (processesWaitingOnPID s pid - 1))
     (upd_mem (pcbMem s) cur P_RUNNING),
   [EvWaiters pid; EvRelease pid]).
Proof.
  run_op. rewrite upd_same.
  replace (processesWaitingOnPID s pid - 1 =? 0)
    with (processesWaitingOnPID s pid =? 1)
    by (destruct (Z.eqb_spec (processesWaitingOnPID s pid) 1),
          (Z.eqb_spec (processesWaitingOnPID s pid - 1) 0); lia || reflexivity).
  destruct (processesWaitingOnPID s pid =? 1); reflexivity.
Qed.

Lemma join_enter_eq pid cur s :
  join_enter pid cur s =
  (tt,
   mkState (processesBitMap s) (pcbList s)
     (match conditionList s pid with
      | None => upd (conditionList s) pid (Some (Condition_new EmptyString))
      | Some _ => conditionList s
      end)
     (match lockList s pid with
      | None => upd (lockList s) pid (Some (Lock_new EmptyString))
      | Some _ => lockList s
      end)
     (pcbStatuses s)
     (upd (processesWaitingOnPID s) pid (processesWaitingOnPID s pid + 1))
     (upd_mem (pcbMem s) cur P_BLOCKED),
   new_objects pid s ++ [EvAcquire pid; EvWaiters pid]).
Proof.
  unfold new_objects. run_op.
  destruct (lockList s pid); cbn; destruct (conditionList s pid); cbn;
    reflexivity.
Qed.

(** ** The wait loop *)

Lemma woken_S k other rest s :
  woken (S k) (other :: rest) s = woken k rest (other s).
Proof. reflexivity. Qed.

Lemma wait_loop_Returned pid sched : forall s s' tr,
  wait_loop pid sched s = Returned s' tr ->
  exists n, (n <= List.length sched)%nat /\
    s' = woken n sched s /\
    getStatus pid s' = GONE /\
    (forall k, (k < n)%nat -> getStatus pid (woken k sched s) <> GONE) /\
    tr = repeat (EvWait pid) n.
Proof.
  induction sched as [|other rest IH]; intros s s' tr H; cbn in H.
  - destruct (Z.eqb_spec (getStatus pid s) (-1)) as [E|E]; [|discriminate].
    injection H as <- <-. exists 0%nat. cbn.
    repeat split; [lia | assumption | intros k Hk; lia].
  - destruct (Z.eqb_spec (getStatus pid s) (-1)) as [E|E].
    + injection H as <- <-. exists 0%nat. cbn.
      repeat split; [lia | assumption | intros k Hk; lia].
    + destruct (wait_loop pid rest (other s)) as [s2 t2|s2 t2] eqn:W;
        cbn in H; [|discriminate].
      injection H as <- <-.
      destruct (IH _ _ _ W) as (n & Hn & Hs & Hg & Hk & Ht).
      exists (S n). rewrite woken_S. cbn [List.length repeat].
      repeat split; [lia | assumption | assumption | | now rewrite Ht].
      intros [|k] Hlt; [exact E|]. rewrite woken_S. apply Hk. lia.
Qed.

Lemma wait_loop_Blocked pid sched : forall s s' tr,
  wait_loop pid sched s = Blocked s' tr ->
  s' = woken (List.length sched) sched s /\
  (forall k, (k <= List.length sched)%nat ->
     getStatus pid (woken k sched s) <> GONE) /\
  tr = repeat (EvWait pid) (S (List.length sched)).
Proof.
  induction sched as [|other rest IH]; intros s s' tr H; cbn in H.
  - destruct (Z.eqb_spec (getStatus pid s) (-1)) as [E|E]; [discriminate|].
    injection H as <- <-. repeat split.
    intros k Hk. cbn in Hk. replace k with 0%nat by lia. exact E.
  - destruct (Z.eqb_spec (getStatus pid s) (-1)) as [E|E]; [discriminate|].
    destruct (wait_loop pid rest (other s)) as [s2 t2|s2 t2] eqn:W;
      cbn in H; [discriminate|].
    injection H as <- <-. destruct (IH _ _ _ W) as (Hs & Hk & Ht).
    cbn [List.length]. rewrite woken_S. repeat split.
    + assumption.
    + intros [|k] Hle; [exact E|]. rewrite woken_S. apply Hk. lia.
    + now rewrite Ht.
Qed.

(** The loop leaves as soon as one wakeup finds the PID gone. *)
Lemma wait_loop_leaves pid sched s n :
  (n <= List.length sched)%nat ->
  getStatus pid (woken n sched s) = GONE ->
  exists s' tr, wait_loop pid sched s = Returned s' tr.
Proof.
  intros Hn Hg. destruct (wait_loop pid sched s) as [s' tr|s' tr] eqn:W.
  - now exists s', tr.
  - destruct (wait_loop_Blocked _ _ _ _ _ W) as (_ & Hk & _).
    now destruct (Hk n Hn).
Qed.

Lemma wait_loop_stays pid sched s :
  (forall k, (k <= List.length sched)%nat ->
     getStatus pid (woken k sched s) <> GONE) ->
  exists s' tr, wait_loop pid sched s = Blocked s' tr.
Proof.
  intros Hk. destruct (wait_loop pid sched s) as [s' tr|s' tr] eqn:W.
  - destruct (wait_loop_Returned _ _ _ _ _ W) as (n & Hn & -> & Hg & _).
    now destruct (Hk n Hn).
  - now exists s', tr.
Qed.

Lemma getStatus_join_leave pid cur s :
  getStatus pid s = GONE ->
  getStatus pid (state_of (join_leave pid cur s)) = GONE.
Proof.
  rewrite join_leave_eq. unfold getStatus, state_of. cbn.
  destruct (processesWaitingOnPID s pid =? 1); [|trivial].
  now rewrite Test_Clear_same.
Qed.

Lemma filter_wait_repeat pid n :
  filter is_wait (repeat (EvWait pid) n) = repeat (EvWait pid) n.
Proof. induction n as [|n IH]; cbn; [reflexivity|]. now rewrite IH. Qed.

Lemma filter_wait_new_objects pid s :
  filter is_wait (new_objects pid s) = [].
Proof.
  unfold new_objects.
  destruct (lockList s pid), (conditionList s pid); reflexivity.
Qed.

(** [join] in terms of its three parts. *)
Lemma join_eq pid cur sched s :
  join pid cur sched s =
  match (if negb (pid =? 0)
         then wait_loop pid sched (state_of (join_enter pid cur s))
         else Returned (state_of (join_enter pid cur s)) []) with
  | Blocked s2 tr2 => Blocked s2 (trace_of (join_enter pid cur s) ++ tr2)
  | Returned s2 tr2 =>
      Returned (state_of (join_leave pid cur s2))
        (trace_of (join_enter pid cur s) ++ tr2 ++
         trace_of (join_leave pid cur s2))
  end.
Proof.
  unfold join, state_of, trace_of.
  destruct (join_enter pid cur s) as [[u s1] t1]. cbn [fst snd].
  destruct (if negb (pid =? 0) then wait_loop pid sched s1
            else Returned s1 []) as [s2 t2|s2 t2]; [|reflexivity].
  now destruct (join_leave pid cur s2) as [[u' s3] t3].
Qed.

Lemma wait_loop_gone pid sched s :
  getStatus pid s = GONE -> wait_loop pid sched s = Returned s [].
Proof.
  intros H. destruct sched; cbn; rewrite H; reflexivity.
Qed.

Lemma filter_wait_join_enter pid cur s :
  filter is_wait (trace_of (join_enter pid cur s)) = [].
Proof.
  rewrite join_enter_eq. unfold trace_of. cbn [snd].
  rewrite filter_app, filter_wait_new_objects. reflexivity.
Qed.

Lemma filter_wait_join_leave pid cur s :
  filter is_wait (trace_of (join_leave pid cur s)) = [].
Proof. rewrite join_leave_eq. reflexivity. Qed.

(** C1.  For a PID other than 0, [join] returns only at a wakeup (or at
    its first test) that finds [getStatus pid] equal to the sentinel -1:
    the status is tested again after each [Wait], every earlier test
    found another value and was followed by one more [Wait], and the
    sentinel is still what [getStatus pid] reports when [join] returns.
    As long as no test finds the sentinel the call stays in [Wait], and
    once a test finds it the call does return. *)
Theorem join_returns_only_when_gone pid cur sched s :
  pid <> 0 ->
  let s1 := state_of (join_enter pid cur s) in
  (forall s' tr, join pid cur sched s = Returned s' tr ->
     exists n, (n <= List.length sched)%nat /\
       getStatus pid (woken n sched s1) = GONE /\
       (forall k, (k < n)%nat -> getStatus pid (woken k sched s1) <> GONE) /\
       filter is_wait tr = repeat (EvWait pid) n /\
       s' = state_of (join_leave pid cur (woken n sched s1)) /\
       getStatus pid s' = GONE) /\
  ((forall k, (k <= List.length sched)%nat ->
      getStatus pid (woken k sched s1) <> GONE) ->
   exists s2 tr2, join pid cur sched s = Blocked s2 tr2) /\
  (forall n, (n <= List.length sched)%nat ->
     getStatus pid (woken n sched s1) = GONE ->
     exists s' tr, join pid cur sched s = Returned s' tr).
Proof.
  intros Hpid s1. apply Z.eqb_neq in Hpid.
  rewrite join_eq, Hpid. cbn [negb]. fold s1. split; [|split].
  - intros s' tr H.
    destruct (wait_loop pid sched s1) as [s2 t2|s2 t2] eqn:W;
      [|discriminate].
    injection H as <- <-.
    destruct (wait_loop_Returned _ _ _ _ _ W) as (n & Hn & -> & Hg & Hk & ->).
    exists n. repeat split; try assumption.
    + rewrite !filter_app, filter_wait_join_enter, filter_wait_join_leave,
        filter_wait_repeat, app_nil_r. reflexivity.
    + now apply getStatus_join_leave.
  - intros Hk. destruct (wait_loop_stays pid sched s1 Hk) as (s2 & t2 & ->).
    now eexists; eexists.
  - intros n Hn Hg.
    destruct (wait_loop_leaves pid sched s1 n Hn Hg) as (s2 & t2 & ->).
    now eexists; eexists.
Qed.

(** ** A call of [join] that does not wait *)

Lemma join_no_wait pid cur sched s :
  pid = 0 \/ getStatus pid (state_of (join_enter pid cur s)) = GONE ->
  join pid cur sched s =
  Returned
    (state_of (join_leave pid cur (state_of (join_enter pid cur s))))
    (trace_of (join_enter pid cur s) ++
     trace_of (join_leave pid cur (state_of (join_enter pid cur s)))).
Proof.
  intros H. rewrite join_eq. destruct (Z.eqb_spec pid 0) as [E|E]; cbn [negb].
  - reflexivity.
  - destruct H as [H|H]; [contradiction|].
    now rewrite (wait_loop_gone _ _ _ H).
Qed.

Lemma join_pass_state pid cur s :
  let s' := state_of (join_leave pid cur (state_of (join_enter pid cur s))) in
  (forall q, processesWaitingOnPID s' q = processesWaitingOnPID s q) /\
  pcbStatuses s' = pcbStatuses s /\
  pcbList s' = pcbList s /\
  processesBitMap s' =
    (if processesWaitingOnPID s pid =? 0
     then BitMap.Clear pid (processesBitMap s) else processesBitMap s).
Proof.
  cbn zeta. rewrite join_leave_eq, join_enter_eq. unfold state_of. cbn.
  rewrite upd_same. repeat split.
  - intros q. unfold upd. destruct (q =? pid) eqn:E; [|reflexivity].
    apply Z.eqb_eq in E. subst q. lia.
  - destruct (Z.eqb_spec (processesWaitingOnPID s pid + 1) 1),
      (Z.eqb_spec (processesWaitingOnPID s pid) 0); try lia; reflexivity.
Qed.

Lemma getStatus_not_member pid s :
  member pid s = false -> getStatus pid s = GONE.
Proof. unfold member, getStatus. now intros ->. Qed.

Lemma member_join_enter q pid cur s :
  member q (state_of (join_enter pid cur s)) = member q s.
Proof. now rewrite join_enter_eq. Qed.

(** C10.  On a PID that is not in the bitmap (never allocated, or
    reclaimed) [join] returns without a single [Wait], whatever the other
    threads would do, and leaves every waiter count, the membership of
    every PID, the cached statuses and the registry as they were. *)
Theorem join_on_free_pid_passes pid cur sched s :
  member pid s = false ->
  exists s' tr,
    join pid cur sched s = Returned s' tr /\
    filter is_wait tr = [] /\
    processesWaitingOnPID s' pid = processesWaitingOnPID s pid /\
    member pid s' = member pid s /\
    (forall q, processesWaitingOnPID s' q = processesWaitingOnPID s q) /\
    (forall q, member q s' = member q s) /\
    pcbStatuses s' = pcbStatuses s /\
    pcbList s' = pcbList s.
Proof.
  intros Hfree.
  assert (Hgone : getStatus pid (state_of (join_enter pid cur s)) = GONE)
    by (apply getStatus_not_member; now rewrite member_join_enter).
  destruct (join_pass_state pid cur s) as (Hw & Hst & Hpcb & Hbm).
  assert (Hmem : forall q,
    member q (state_of (join_leave pid cur (state_of (join_enter pid cur s))))
    = member q s).
  { intros q. unfold member at 1. rewrite Hbm.
    destruct (processesWaitingOnPID s pid =? 0); [|reflexivity].
    destruct (Z.eq_dec q pid) as [->|Hq].
    - rewrite Test_Clear_same. now symmetry.
    - now apply Test_Clear_other. }
  eexists; eexists. split; [apply join_no_wait; now right|].
  rewrite filter_app, filter_wait_join_enter, filter_wait_join_leave.
  repeat split; auto.
Qed.

(** ** Allocated PIDs are counted *)

Lemma Test_create n q : BitMap.Test q (BitMap.create n) = false.
Proof.
  unfold BitMap.Test, BitMap.create. destruct (q <? 0); [reflexivity|].
  generalize (Z.to_nat q). induction n as [|n IH]; intros [|k]; cbn; auto.
Qed.

Lemma Test_NONE b : BitMap.Test BitMap.NONE b = false.
Proof. reflexivity. Qed.

Lemma Test_Find_found b i :
  BitMap.first_clear b = Some i ->
  BitMap.Test (Z.of_nat i) b = false /\
  BitMap.Test (Z.of_nat i) (BitMap.set_bit i true b) = true /\
  forall q, q <> Z.of_nat i ->
    BitMap.Test q (BitMap.set_bit i true b) = BitMap.Test q b.
Proof.
  intros H. destruct (first_clear_Some _ _ H) as (Hlen & Hbit & _).
  unfold BitMap.Test.
  destruct (Z.ltb_spec (Z.of_nat i) 0) as [Hneg|_]; [lia|].
  rewrite Nat2Z.id. repeat split.
  - assumption.
  - now apply nth_set_bit_same.
  - intros q Hq. destruct (Z.ltb_spec q 0); [reflexivity|].
    apply nth_set_bit_other. lia.
Qed.

Lemma counted_new n w0 st0 mem : counted (ProcessManager_new n w0 st0 mem).
Proof.
  intros q H. unfold member in H. cbn in H. now rewrite Test_create in H.
Qed.

Lemma counted_drop pid s b' mem' :
  counted s ->
  counted
    (mkState
       (if processesWaitingOnPID s pid =? 1
        then BitMap.Clear pid (processesBitMap s) else processesBitMap s)
       (pcbList s) (conditionList s) b' (pcbStatuses s)
       (upd (processesWaitingOnPID s) pid (processesWaitingOnPID s pid - 1))
       mem').
Proof.
  intros Hc q. unfold member. cbn. intros Hq.
  destruct (Z.eq_dec q pid) as [->|Hne].
  - rewrite upd_same.
    destruct (Z.eqb_spec (processesWaitingOnPID s pid) 1) as [E|E].
    + now rewrite Test_Clear_same in Hq.
    + specialize (Hc pid Hq). lia.
  - rewrite upd_other by assumption. apply Hc. unfold member.
    destruct (processesWaitingOnPID s pid =? 1); [|assumption].
    now rewrite Test_Clear_other in Hq.
Qed.

Lemma counted_step st s : counted s -> counted (step st s).
Proof.
  intros Hc. destruct st as [|pid|pcb pid|pid|pid cur|pid cur|pcb v]; cbn [step].
  - rewrite getPID_eq. unfold state_of, BitMap.Find. cbn [fst snd].
    intros q. unfold member. cbn.
    destruct (BitMap.first_clear (processesBitMap s)) as [i|] eqn:F;
      cbn [fst snd]; intros Hq.
    + destruct (Test_Find_found _ _ F) as (_ & _ & Hother).
      destruct (Z.eq_dec q (Z.of_nat i)) as [->|Hne].
      * rewrite upd_same. lia.
      * rewrite !upd_other by assumption. apply Hc. unfold member.
        now rewrite Hother in Hq.
    + destruct (Z.eq_dec q BitMap.NONE) as [->|Hne].
      * rewrite upd_same. lia.
      * rewrite !upd_other by assumption. now apply Hc.
  - rewrite clearPID_eq. now apply counted_drop.
  - exact Hc.
  - unfold broadcast. destruct (pcbList s pid); [|exact Hc].
    cbv [bind store_status gets state_of fst snd]. cbn.
    destruct (conditionList s pid); exact Hc.
  - rewrite join_enter_eq. intros q. unfold member, state_of. cbn.
    intros Hq. specialize (Hc q Hq). unfold upd.
    destruct (Z.eqb_spec q pid) as [->|_]; lia.
  - rewrite join_leave_eq. now apply counted_drop.
  - exact Hc.
Qed.

Lemma counted_run l : forall s, counted s -> counted (run l s).
Proof.
  induction l as [|st l IH]; intros s Hc; [exact Hc|].
  cbn. apply IH. now apply counted_step.
Qed.

(** What [join(0)] does in any state at all: the count of PID 0 goes up
    and down again, and the test after the decrement clears bit 0 when
    the count was 0 to begin with. *)
Lemma join_zero_exact cur sched s :
  exists s' tr,
    join 0 cur sched s = Returned s' tr /\
    filter is_wait tr = [] /\
    (forall q, processesWaitingOnPID s' q = processesWaitingOnPID s q) /\
    pcbStatuses s' = pcbStatuses s /\
    pcbList s' = pcbList s /\
    processesBitMap s' =
      (if processesWaitingOnPID s 0 =? 0
       then BitMap.Clear 0 (processesBitMap s) else processesBitMap s).
Proof.
  destruct (join_pass_state 0 cur s) as (Hw & Hst & Hpcb & Hbm).
  eexists; eexists. split; [apply join_no_wait; now left|].
  rewrite filter_app, filter_wait_join_enter, filter_wait_join_leave.
  repeat split; assumption.
Qed.

(** C6.  In every state the manager reaches from its constructor,
    [join(0)] returns without a single [Wait], whatever is registered or
    cached for PID 0, and leaves the membership of every PID, every
    waiter count, the cached statuses and the registry as they were. *)
Theorem join_zero_returns_at_once n w0 st0 mem l cur sched :
  let s := run l (ProcessManager_new n w0 st0 mem) in
  exists s' tr,
    join 0 cur sched s = Returned s' tr /\
    filter is_wait tr = [] /\
    (forall q, member q s' = member q s) /\
    (forall q, processesWaitingOnPID s' q = processesWaitingOnPID s q) /\
    pcbStatuses s' = pcbStatuses s /\
    pcbList s' = pcbList s.
Proof.
  intros s.
  assert (Hc : counted s) by apply counted_run, counted_new.
  destruct (join_zero_exact cur sched s)
    as (s' & tr & Hj & Hwait & Hw & Hst & Hpcb & Hbm).
  exists s', tr. repeat split; try assumption.
  intros q. unfold member at 1. rewrite Hbm.
  destruct (Z.eqb_spec (processesWaitingOnPID s 0) 0) as [E|E];
    [|reflexivity].
  destruct (Z.eq_dec q 0) as [->|Hq].
  - rewrite Test_Clear_same.
    destruct (member 0 s) eqn:Hm; [|reflexivity].
    specialize (Hc 0 Hm). lia.
  - now apply Test_Clear_other.
Qed.

(** ** Reference counting *)

Lemma member_drop pid q s :
  BitMap.Test q
    (if processesWaitingOnPID s pid =? 1
     then BitMap.Clear pid (processesBitMap s) else processesBitMap s)
  = member q s && negb ((q =? pid) && (processesWaitingOnPID s pid =? 1)).
Proof.
  unfold member. destruct (processesWaitingOnPID s pid =? 1).
  - destruct (Z.eqb_spec q pid) as [->|Hq]; cbn.
    + now rewrite Test_Clear_same, andb_false_r.
    + now rewrite Test_Clear_other, andb_true_r.
  - now rewrite andb_false_r, andb_true_r.
Qed.

Lemma member_getPID q s :
  member q s = true -> member q (state_of (getPID s)) = true.
Proof.
  rewrite getPID_eq. unfold member, state_of, BitMap.Find. cbn.
  destruct (BitMap.first_clear (processesBitMap s)) as [i|] eqn:F;
    cbn [snd]; [|trivial].
  destruct (Test_Find_found _ _ F) as (_ & Hi & Hother).
  intros Hq. destruct (Z.eq_dec q (Z.of_nat i)) as [->|Hne]; [assumption|].
  now rewrite Hother.
Qed.

Lemma waiters_getPID q s :
  member q s = true ->
  processesWaitingOnPID (state_of (getPID s)) q = processesWaitingOnPID s q.
Proof.
  rewrite getPID_eq. unfold member, state_of, BitMap.Find. cbn.
  destruct (BitMap.first_clear (processesBitMap s)) as [i|] eqn:F;
    cbn [fst]; intros Hq.
  - destruct (Test_Find_found _ _ F) as (Hi & _ & _).
    rewrite !upd_other; [reflexivity| |]; intros ->; congruence.
  - rewrite !upd_other; [reflexivity| |]; intros ->;
      now rewrite Test_NONE in Hq.
Qed.

Lemma step_removal st pid s :
  member pid s = true ->
  (member pid (step st s) = false <->
   processesWaitingOnPID s pid = 1 /\
   processesWaitingOnPID (step st s) pid = 0) /\
  (member pid (step st s) = false ->
   st = SClearPID pid \/ exists cur, st = SJoinLeave pid cur).
Proof.
  assert (Hdrop : forall p b' mem',
    member pid s = true ->
    let s' := mkState
       (if processesWaitingOnPID s p =? 1
        then BitMap.Clear p (processesBitMap s) else processesBitMap s)
       (pcbList s) (conditionList s) b' (pcbStatuses s)
       (upd (processesWaitingOnPID s) p (processesWaitingOnPID s p - 1))
       mem' in
    (member pid s' = false <->
     processesWaitingOnPID s pid = 1 /\ processesWaitingOnPID s' pid = 0) /\
    (member pid s' = false -> p = pid)).
  { intros p b' mem' Hm s'. unfold s', member at 1 2. cbn.
    rewrite member_drop, Hm. cbn [andb].
    destruct (Z.eqb_spec pid p) as [->|Hne]; cbn [andb].
    - rewrite upd_same.
      destruct (Z.eqb_spec (processesWaitingOnPID s p) 1) as [E|E]; cbn;
        repeat split; try lia; try congruence; intros; lia.
    - rewrite upd_other by assumption. cbn.
      repeat split; try lia; try congruence; intros; lia. }
  intros Hm.
  destruct st as [|p|pcb p|p|p cur|p cur|pcb v]; cbn [step].
  - rewrite waiters_getPID, member_getPID by assumption.
    repeat split; try congruence; intros; lia.
  - rewrite clearPID_eq. unfold state_of. cbn [fst snd].
    destruct (Hdrop p (lockList s) (pcbMem s) Hm) as [H1 H2].
    split; [exact H1|]. intros H. left. now rewrite (H2 H).
  - unfold member, state_of. cbn. unfold member in Hm. rewrite Hm.
    repeat split; try congruence; intros; lia.
  - assert (E : member pid
               match broadcast p s with Some r => state_of r | None => s end
             = member pid s /\
             processesWaitingOnPID
               match broadcast p s with Some r => state_of r | None => s end
               pid = processesWaitingOnPID s pid).
    { unfold broadcast. destruct (pcbList s p); [|now split].
      cbv [bind store_status gets state_of fst snd]. cbn.
      destruct (conditionList s p); now split. }
    destruct E as [-> ->]. rewrite Hm.
    repeat split; try congruence; intros; lia.
  - rewrite join_enter_eq. unfold member, state_of. cbn.
    unfold member in Hm. rewrite Hm. unfold upd.
    destruct (Z.eqb_spec pid p) as [->|_];
      repeat split; try congruence; intros; lia.
  - rewrite join_leave_eq. unfold state_of. cbn [fst snd].
    destruct (Hdrop p (lockList s) (upd_mem (pcbMem s) cur P_RUNNING) Hm)
      as [H1 H2].
    split; [exact H1|]. intros H. right. exists cur. now rewrite (H2 H).
  - unfold member, state_of. cbn. unfold member in Hm. rewrite Hm.
    repeat split; try congruence; intros; lia.
Qed.

Lemma join_Returned_parts pid cur sched s s' tr :
  join pid cur sched s = Returned s' tr ->
  exists n, (n <= List.length sched)%nat /\
    s' = step (SJoinLeave pid cur)
           (woken n sched (step (SJoinEnter pid cur) s)).
Proof.
  rewrite join_eq. cbn [step].
  destruct (negb (pid =? 0)).
  - destruct (wait_loop pid sched (state_of (join_enter pid cur s)))
      as [s2 t2|s2 t2] eqn:W; [|discriminate].
    intros H. injection H as <- <-.
    destruct (wait_loop_Returned _ _ _ _ _ W) as (n & Hn & -> & _).
    now exists n.
  - intros H. injection H as <- <-. exists 0%nat. split; [lia|reflexivity].
Qed.

(** C2.  [getPID] leaves the waiter count of the PID it returns at 1.
    After any sequence of steps of the manager, the next step takes an
    allocated PID out of the bitmap exactly when it takes the waiter
    count of that PID from 1 to 0; the only steps that do so are
    [clearPID] and the part of [join] after its wait loop, both of which
    decrement the count by one and clear the bit when the result is 0;
    a returning [join] ends with that part. *)
Theorem waiter_count_governs_removal :
  (forall s,
     processesWaitingOnPID (state_of (getPID s)) (value_of (getPID s)) = 1) /\
  (forall l s0 st pid,
     let s := run l s0 in
     member pid s = true ->
     (member pid (step st s) = false <->
      processesWaitingOnPID s pid = 1 /\
      processesWaitingOnPID (step st s) pid = 0) /\
     (member pid (step st s) = false ->
      st = SClearPID pid \/ exists cur, st = SJoinLeave pid cur)) /\
  (forall pid cur s,
     processesWaitingOnPID (step (SClearPID pid) s) pid
     = processesWaitingOnPID s pid - 1 /\
     processesWaitingOnPID (step (SJoinLeave pid cur) s) pid
     = processesWaitingOnPID s pid - 1) /\
  (forall pid cur sched s s' tr,
     join pid cur sched s = Returned s' tr ->
     exists n, (n <= List.length sched)%nat /\
       s' = step (SJoinLeave pid cur)
              (woken n sched (step (SJoinEnter pid cur) s))).
Proof.
  split; [|split; [|split]].
  - intros s. rewrite getPID_eq. unfold state_of, value_of. cbn.
    apply upd_same.
  - intros l s0 st pid s Hm. now apply step_removal.
  - intros pid cur s. cbn [step].
    rewrite clearPID_eq, join_leave_eq. unfold state_of. cbn.
    now rewrite upd_same.
  - apply join_Returned_parts.
Qed.

(** C4.  [clearPID] decrements the waiter count of its PID whatever the
    count is, also at 0, where the count becomes -1; it has no failure
    to report.  The other counts are left alone, and the bit of the PID
    is cleared exactly when the count was 1. *)
Theorem clearPID_always_decrements pid s :
  value_of (clearPID pid s) = tt /\
  processesWaitingOnPID (state_of (clearPID pid s)) pid
  = processesWaitingOnPID s pid - 1 /\
  (forall q, q <> pid ->
     processesWaitingOnPID (state_of (clearPID pid s)) q
     = processesWaitingOnPID s q) /\
  (forall q, member q (state_of (clearPID pid s))
     = member q s && negb ((q =? pid) && (processesWaitingOnPID s pid =? 1))).
Proof.
  rewrite clearPID_eq. unfold state_of, value_of. cbn.
  repeat split.
  - apply upd_same.
  - intros q Hq. now apply upd_other.
  - intros q. unfold member at 1. cbn. apply member_drop.
Qed.

(** C8.  [addProcess] stores the PCB pointer in the slot of the PID
    whatever the slot holds and whether or not the PID is allocated: a
    pointer already there is overwritten, and no failure is reported.
    Nothing else changes and no lock is touched. *)
Theorem addProcess_overwrites pcb pid s :
  value_of (addProcess pcb pid s) = tt /\
  trace_of (addProcess pcb pid s) = [] /\
  pcbList (state_of (addProcess pcb pid s)) pid = pcb /\
  (forall q, q <> pid ->
     pcbList (state_of (addProcess pcb pid s)) q = pcbList s q) /\
  processesBitMap (state_of (addProcess pcb pid s)) = processesBitMap s /\
  processesWaitingOnPID (state_of (addProcess pcb pid s))
  = processesWaitingOnPID s /\
  pcbStatuses (state_of (addProcess pcb pid s)) = pcbStatuses s.
Proof.
  unfold addProcess, store_pcb, state_of, value_of, trace_of. cbn.
  repeat split.
  - apply upd_same.
  - intros q Hq. now apply upd_other.
Qed.

(** C7.  With a PCB registered for the PID, [broadcast] first stores the
    current status of that PCB into [pcbStatuses[pid]] and then calls
    [Broadcast] on the condition variable of the PID if and only if one
    exists; when none exists the call touches no lock and no condition
    variable.  Nothing else in the manager changes. *)
Theorem broadcast_copies_then_wakes pid s pcb :
  pcbList s pid = Some pcb ->
  exists s',
    broadcast pid s =
    Some (tt, s',
          EvStatus pid ::
          match conditionList s pid with
          | Some _ => [EvBroadcast pid]
          | None => []
          end) /\
    pcbStatuses s' pid = pcbMem s pcb /\
    (forall q, q <> pid -> pcbStatuses s' q = pcbStatuses s q) /\
    processesBitMap s' = processesBitMap s /\
    processesWaitingOnPID s' = processesWaitingOnPID s /\
    pcbList s' = pcbList s /\
    lockList s' = lockList s /\
    conditionList s' = conditionList s /\
    pcbMem s' = pcbMem s /\
    (conditionList s pid = None ->
     filter is_sync
       (EvStatus pid ::
        match conditionList s pid with
        | Some _ => [EvBroadcast pid]
        | None => []
        end) = []).
Proof.
  intros Hpcb. unfold broadcast. rewrite Hpcb.
  cbv [bind store_status gets emit ret]. cbn.
  destruct (conditionList s pid) as [c|] eqn:Hc; cbn;
    eexists; (split; [reflexivity|]); cbn;
    repeat split; try apply upd_same;
    try (intros q Hq; now apply upd_other); try discriminate.
Qed.

(** C5.  [getStatus] returns -1 for a PID that is not in the bitmap and
    the cached status for one that is.  It therefore returns -1 exactly
    when the PID is not in the bitmap or the cached status is itself -1:
    the sentinel is told apart from a status only when the status cached
    for the PID is not -1. *)
Theorem getStatus_spec pid s :
  (member pid s = false -> getStatus pid s = GONE) /\
  (member pid s = true -> getStatus pid s = pcbStatuses s pid) /\
  (getStatus pid s = GONE <->
   member pid s = false \/ pcbStatuses s pid = GONE) /\
  (pcbStatuses s pid <> GONE ->
   (getStatus pid s = GONE <-> member pid s = false)).
Proof.
  unfold getStatus, member.
  destruct (BitMap.Test pid (processesBitMap s)); cbn;
    repeat split; intros; try tauto; try congruence;
    try (now left); try (now right).
  destruct H; congruence.
Qed.

(** ** Lock discipline *)

Lemma guarded_new_objects held pid s r :
  guarded held (new_objects pid s ++ r) = guarded held r.
Proof.
  unfold new_objects.
  destruct (lockList s pid), (conditionList s pid); reflexivity.
Qed.

Lemma guarded_waits held pid n r :
  guarded held (repeat (EvWait pid) n ++ r) = guarded held r.
Proof. induction n as [|n IH]; cbn; [reflexivity | exact IH]. Qed.

Lemma outcome_trace_join pid cur sched s :
  exists n,
    outcome_trace (join pid cur sched s) =
      new_objects pid s ++ [EvAcquire pid; EvWaiters pid] ++
      repeat (EvWait pid) n ++ [EvWaiters pid; EvRelease pid]
    \/
    outcome_trace (join pid cur sched s) =
      new_objects pid s ++ [EvAcquire pid; EvWaiters pid] ++
      repeat (EvWait pid) n ++ [].
Proof.
  rewrite join_eq. destruct (negb (pid =? 0)).
  - destruct (wait_loop pid sched (state_of (join_enter pid cur s)))
      as [s2 t2|s2 t2] eqn:W.
    + destruct (wait_loop_Returned _ _ _ _ _ W) as (n & _ & _ & _ & _ & ->).
      exists n. left. rewrite join_enter_eq, join_leave_eq.
      unfold outcome_trace, trace_of. cbn [snd]. now rewrite <- app_assoc.
    + destruct (wait_loop_Blocked _ _ _ _ _ W) as (_ & _ & ->).
      exists (S (List.length sched)). right. rewrite join_enter_eq.
      unfold outcome_trace, trace_of. cbn [snd].
      now rewrite <- app_assoc, app_nil_r.
  - exists 0%nat. left. rewrite join_enter_eq, join_leave_eq.
    unfold outcome_trace, trace_of. cbn [snd]. now rewrite <- app_assoc.
Qed.

(** C9.  [join] stores into the waiter count of its PID, and of no
    other, only between [Acquire] and [Release] of the lock of that PID
    ([Wait] apart, during which it stores nothing); [broadcast] does not
    store into the waiter counts at all; [getPID] and [clearPID] store
    into them without any call on a lock. *)
Theorem waiter_stores_and_locks pid cur sched s :
  guarded [] (outcome_trace (join pid cur sched s)) = true /\
  (forall q, In (EvWaiters q) (outcome_trace (join pid cur sched s)) ->
     q = pid) /\
  (forall r, broadcast pid s = Some r ->
     (forall q, ~ In (EvWaiters q) (trace_of r)) /\
     processesWaitingOnPID (state_of r) = processesWaitingOnPID s) /\
  trace_of (clearPID pid s) = [EvWaiters pid] /\
  trace_of (getPID s) =
    [EvWaiters (value_of (getPID s)); EvWaiters (value_of (getPID s))].
Proof.
  split; [|split; [|split; [|split]]].
  - destruct (outcome_trace_join pid cur sched s) as [n [-> | ->]];
      rewrite guarded_new_objects; cbn [app guarded existsb];
      rewrite Z.eqb_refl; cbn [orb andb]; rewrite guarded_waits; cbn;
      now rewrite ?Z.eqb_refl.
  - intros q.
    assert (Hobj : ~ In (EvWaiters q) (new_objects pid s)).
    { unfold new_objects.
      destruct (lockList s pid), (conditionList s pid); cbn;
        intuition discriminate. }
    assert (Hrep : forall n, ~ In (EvWaiters q) (repeat (EvWait pid) n)).
    { intros n H. apply repeat_spec in H. discriminate. }
    destruct (outcome_trace_join pid cur sched s) as [n [-> | ->]];
      rewrite !in_app_iff; cbn; intros H;
      repeat match goal with
             | H : _ \/ _ |- _ => destruct H
             | H : EvWaiters _ = EvWaiters _ |- _ => injection H as <-
             end;
      try reflexivity; try discriminate; try contradiction;
      now destruct (Hrep n).
  - intros r. unfold broadcast. destruct (pcbList s pid); [|discriminate].
    cbv [bind store_status gets emit ret]. cbn.
    destruct (conditionList s pid); cbn; intros H; injection H as <-;
      (split; [|reflexivity]); intros q; cbn; intuition discriminate.
  - now rewrite clearPID_eq.
  - now rewrite getPID_eq.
Qed.

(** ** Exhaustion *)

Lemma repeat_true_snoc j r :
  repeat true j ++ true :: r = repeat true (S j) ++ r.
Proof. induction j as [|j IH]; cbn; [reflexivity|]. now rewrite IH. Qed.

Lemma allocate_n_fills k : forall j s,
  processesBitMap s = repeat true j ++ repeat false k ->
  fst (allocate_n k s) = map Z.of_nat (seq j k) /\
  processesBitMap (snd (allocate_n k s)) = repeat true (j + k) /\
  processesWaitingOnPID (snd (allocate_n k s)) (-1)
  = processesWaitingOnPID s (-1).
Proof.
  induction k as [|k IH]; intros j s Hb.
  - cbn. rewrite Hb, app_nil_r, Nat.add_0_r. repeat split.
  - cbn [allocate_n]. rewrite getPID_eq.
    unfold BitMap.Find. rewrite Hb. cbn [repeat].
    rewrite first_clear_fill, set_bit_fill, repeat_true_snoc. cbn [fst snd].
    match goal with
    | |- context [allocate_n k ?s1] =>
        destruct (IH (S j) s1 eq_refl) as (H1 & H2 & H3);
        destruct (allocate_n k s1) as [pids s2]
    end.
    cbn [fst snd] in *. rewrite H1, H2, H3. cbn [processesWaitingOnPID].
    rewrite !upd_other by lia.
    repeat split. f_equal. lia.
Qed.

Lemma first_clear_exists b q :
  0 <= q < BitMap.numBits b -> BitMap.Test q b = false ->
  exists i, BitMap.first_clear b = Some i.
Proof.
  intros Hq Ht. destruct (BitMap.first_clear b) as [i|] eqn:F; [now exists i|].
  unfold BitMap.Test, BitMap.numBits in *.
  destruct (Z.ltb_spec q 0); [lia|].
  rewrite (first_clear_None b F) in Ht by lia. discriminate.
Qed.

(** X1.  With a free identifier in the bitmap, [getPID] returns the lowest
    one, which was not allocated before, marks it and leaves its waiter
    count at 1; nothing changes for any other PID. *)
Lemma getPID_returns_lowest_free s q :
  0 <= q < BitMap.numBits (processesBitMap s) -> member q s = false ->
  let pid := value_of (getPID s) in
  let s' := state_of (getPID s) in
  0 <= pid <= q /\
  member pid s = false /\
  member pid s' = true /\
  processesWaitingOnPID s' pid = 1 /\
  (forall p, 0 <= p < pid -> member p s = true) /\
  (forall p, p <> pid ->
     member p s' = member p s /\
     processesWaitingOnPID s' p = processesWaitingOnPID s p).
Proof.
  intros Hq Hfree.
  destruct (first_clear_exists _ _ Hq Hfree) as [i F].
  destruct (first_clear_Some _ _ F) as (Hlen & Hbit & Hlow).
  destruct (Test_Find_found _ _ F) as (Hi & Hi' & Hother).
  rewrite getPID_eq. unfold value_of, state_of, member, BitMap.Find.
  rewrite F. cbn. rewrite upd_same.
  assert (Hbelow : forall p, 0 <= p < Z.of_nat i ->
            BitMap.Test p (processesBitMap s) = true).
  { intros p Hp. unfold BitMap.Test. destruct (Z.ltb_spec p 0); [lia|].
    apply Hlow. lia. }
  repeat split; try assumption; try lia.
  - destruct (Z.le_gt_cases (Z.of_nat i) q) as [Hle|Hgt]; [exact Hle|].
    unfold member in Hfree. rewrite Hbelow in Hfree by lia. discriminate.
  - now apply Hother.
  - now rewrite !upd_other.
Qed.

(** C3.  After [n] calls of [getPID] on a manager of [n] PIDs, which
    return 0 .. n-1 and fill the bitmap, the next call gets the answer
    "exhausted" from [Find], stores the waiter count 1 at that index of
    [processesWaitingOnPID] (index -1, a cell the calls before did not
    touch) and returns it as its PID. *)
Theorem getPID_exhausted_stores_out_of_range n w0 st0 mem :
  let s0 := ProcessManager_new n w0 st0 mem in
  let s := snd (allocate_n n s0) in
  fst (allocate_n n s0) = map Z.of_nat (seq 0 n) /\
  BitMap.full (processesBitMap s) /\
  processesWaitingOnPID s BitMap.NONE = w0 BitMap.NONE /\
  value_of (getPID s) = BitMap.NONE /\
  trace_of (getPID s) = [EvWaiters BitMap.NONE; EvWaiters BitMap.NONE] /\
  processesWaitingOnPID (state_of (getPID s)) BitMap.NONE = 1 /\
  processesBitMap (state_of (getPID s)) = processesBitMap s.
Proof.
  intros s0 s.
  destruct (allocate_n_fills n 0%nat s0) as (H1 & H2 & H3).
  { unfold s0, ProcessManager_new, BitMap.create. reflexivity. }
  fold s in H2, H3. cbn [Nat.add] in H2.
  assert (Hfull : BitMap.first_clear (processesBitMap s) = None)
    by (rewrite H2; apply first_clear_all_set).
  rewrite getPID_eq. unfold BitMap.full, BitMap.Find, value_of, trace_of,
    state_of. rewrite Hfull. cbn.
  repeat split; assumption.
Qed.

(** ** Capacity and recycling *)

Lemma Test_in_range q b : BitMap.Test q b = true -> 0 <= q < BitMap.numBits b.
Proof.
  unfold BitMap.Test, BitMap.numBits. destruct (Z.ltb_spec q 0); [discriminate|].
  intros Hq. split; [assumption|].
  destruct (Nat.lt_ge_cases (Z.to_nat q) (List.length b)) as [Hlt|Hge]; [lia|].
  rewrite nth_overflow in Hq by assumption. discriminate.
Qed.

Lemma numBits_Clear pid b :
  BitMap.numBits (BitMap.Clear pid b) = BitMap.numBits b.
Proof.
  unfold BitMap.numBits, BitMap.Clear. destruct (pid <? 0); [reflexivity|].
  now rewrite length_set_bit.
Qed.

Lemma numBits_Find b : BitMap.numBits (snd (BitMap.Find b)) = BitMap.numBits b.
Proof.
  unfold BitMap.numBits, BitMap.Find. destruct (BitMap.first_clear b); cbn;
    [now rewrite length_set_bit | reflexivity].
Qed.

Lemma numBits_step st s :
  BitMap.numBits (processesBitMap (step st s))
  = BitMap.numBits (processesBitMap s).
Proof.
  destruct st as [|pid|pcb pid|pid|pid cur|pid cur|pcb v]; cbn [step].
  - rewrite getPID_eq. apply numBits_Find.
  - rewrite clearPID_eq. unfold state_of. cbn.
    destruct (processesWaitingOnPID s pid =? 1);
      [apply numBits_Clear | reflexivity].
  - reflexivity.
  - unfold broadcast. destruct (pcbList s pid); [|reflexivity].
    cbv [bind store_status gets state_of fst snd]. cbn.
    now destruct (conditionList s pid).
  - now rewrite join_enter_eq.
  - rewrite join_leave_eq. unfold state_of. cbn.
    destruct (processesWaitingOnPID s pid =? 1);
      [apply numBits_Clear | reflexivity].
  - reflexivity.
Qed.

Lemma numBits_run l : forall s,
  BitMap.numBits (processesBitMap (run l s))
  = BitMap.numBits (processesBitMap s).
Proof.
  induction l as [|st l IH]; intros s; [reflexivity|].
  cbn. now rewrite IH, numBits_step.
Qed.

(** X2.  [getPID] returns -1 exactly when every identifier of the bitmap is
    allocated, and then leaves the bitmap as it is; any other result is an
    identifier of the bitmap.  The number of bits never changes. *)
Theorem getPID_exhausted_iff_full s :
  let pid := value_of (getPID s) in
  let s' := state_of (getPID s) in
  (pid = BitMap.NONE <->
   forall q, 0 <= q < BitMap.numBits (processesBitMap s) -> member q s = true) /\
  (pid = BitMap.NONE \/ 0 <= pid < BitMap.numBits (processesBitMap s)) /\
  (pid = BitMap.NONE -> processesBitMap s' = processesBitMap s) /\
  BitMap.numBits (processesBitMap s') = BitMap.numBits (processesBitMap s).
Proof.
  cbn zeta. rewrite getPID_eq. unfold value_of, state_of.
  cbn [fst snd processesBitMap].
  rewrite numBits_Find. unfold BitMap.Find, member.
  destruct (BitMap.first_clear (processesBitMap s)) as [i|] eqn:F; cbn [fst snd].
  - destruct (first_clear_Some _ _ F) as (Hlen & Hbit & _).
    destruct (Test_Find_found _ _ F) as (Hi & _ & _).
    unfold BitMap.NONE, BitMap.numBits. repeat split; try lia.
    intros H. specialize (H (Z.of_nat i)). rewrite Hi in H.
    assert (false = true) by (apply H; lia). discriminate.
  - repeat split; try tauto.
    intros _ q Hq. unfold BitMap.Test, BitMap.numBits in *.
    destruct (Z.ltb_spec q 0); [lia|]. apply (first_clear_None _ F). lia.
Qed.

Lemma Test_fill j m q :
  BitMap.Test q (repeat true j ++ repeat false m)
  = (0 <=? q) && (q <? Z.of_nat j).
Proof.
  unfold BitMap.Test. destruct (Z.ltb_spec q 0) as [Hneg|Hpos].
  - destruct (Z.leb_spec 0 q); [lia | reflexivity].
  - destruct (Z.leb_spec 0 q); [|lia]. cbn [andb].
    destruct (Z.ltb_spec q (Z.of_nat j)) as [Hlt|Hge].
    + rewrite app_nth1 by (rewrite repeat_length; lia).
      apply nth_repeat_lt. lia.
    + rewrite app_nth2 by (rewrite repeat_length; lia).
      rewrite repeat_length.
      generalize (Z.to_nat q - j)%nat. intros k.
      destruct (Nat.lt_ge_cases k m) as [Hk|Hk].
      * now apply nth_repeat_lt.
      * apply nth_overflow. now rewrite repeat_length.
Qed.

Lemma allocate_n_prefix k : forall j m s,
  processesBitMap s = repeat true j ++ repeat false (k + m) ->
  fst (allocate_n k s) = map Z.of_nat (seq j k) /\
  processesBitMap (snd (allocate_n k s))
  = repeat true (j + k) ++ repeat false m /\
  forall q,
    processesWaitingOnPID (snd (allocate_n k s)) q
    = if (Z.of_nat j <=? q) && (q <? Z.of_nat (j + k)) then 1
      else processesWaitingOnPID s q.
Proof.
  induction k as [|k IH]; intros j m s Hb.
  - cbn. rewrite Hb, Nat.add_0_r. repeat split. intros q.
    destruct (Z.leb_spec (Z.of_nat j) q), (Z.ltb_spec q (Z.of_nat j));
      cbn; try reflexivity; lia.
  - cbn [allocate_n]. rewrite getPID_eq.
    unfold BitMap.Find. rewrite Hb. cbn [repeat Nat.add].
    rewrite first_clear_fill, set_bit_fill, repeat_true_snoc. cbn [fst snd].
    match goal with
    | |- context [allocate_n k ?s1] =>
        destruct (IH (S j) m s1 eq_refl) as (H1 & H2 & H3);
        destruct (allocate_n k s1) as [pids s2]
    end.
    cbn [fst snd] in *. rewrite H1, H2.
    repeat split.
    + f_equal. f_equal. lia.
    + intros q. rewrite H3. cbn [processesWaitingOnPID].
      destruct (Z.leb_spec (Z.of_nat (S j)) q),
        (Z.ltb_spec q (Z.of_nat (S j + k))),
        (Z.leb_spec (Z.of_nat j) q),
        (Z.ltb_spec q (Z.of_nat (j + S k))); cbn [andb];
        try reflexivity; try lia.
      * now rewrite !upd_other by lia.
      * replace q with (Z.of_nat j) by lia. now rewrite upd_same.
      * now rewrite !upd_other by lia.
Qed.

(** X3.  The first [k] calls of [getPID] on a new manager of at least [k]
    PIDs return 0, 1, ..., k-1 in this order; afterwards exactly these are
    allocated, each with a waiter count of 1, and the counts of all other
    indices are as the constructor left them. *)
Theorem allocate_n_sequence n k w0 st0 mem :
  (k <= n)%nat ->
  let r := allocate_n k (ProcessManager_new n w0 st0 mem) in
  fst r = map Z.of_nat (seq 0 k) /\
  (forall q, member q (snd r) = (0 <=? q) && (q <? Z.of_nat k)) /\
  (forall q, 0 <= q < Z.of_nat k -> processesWaitingOnPID (snd r) q = 1) /\
  (forall q, ~ (0 <= q < Z.of_nat k) ->
     processesWaitingOnPID (snd r) q = w0 q).
Proof.
  intros Hk r.
  destruct (allocate_n_prefix k 0%nat (n - k)%nat
              (ProcessManager_new n w0 st0 mem)) as (H1 & H2 & H3).
  { cbn. unfold BitMap.create. f_equal. lia. }
  fold r in H1, H2, H3. cbn [Nat.add] in H2, H3.
  repeat split.
  - exact H1.
  - intros q. unfold member. rewrite H2. apply Test_fill.
  - intros q Hq. rewrite H3.
    destruct (Z.leb_spec (Z.of_nat 0) q), (Z.ltb_spec q (Z.of_nat k));
      cbn; try reflexivity; lia.
  - intros q Hq. rewrite H3.
    destruct (Z.leb_spec (Z.of_nat 0) q), (Z.ltb_spec q (Z.of_nat k));
      cbn; try reflexivity; lia.
Qed.



(** X5.  In every state the manager reaches from its constructor, an
    allocated PID lies in [0, MAX_PROCESSES) and has a waiter count of at
    least 1. *)
Theorem allocated_pids_in_range_and_counted n w0 st0 mem l pid :
  let s := run l (ProcessManager_new n w0 st0 mem) in
  member pid s = true ->
  0 <= pid < Z.of_nat n /\ 1 <= processesWaitingOnPID s pid.
Proof.
  intros s Hm. split.
  - apply Test_in_range in Hm. unfold s in Hm. rewrite numBits_run in Hm.
    cbn in Hm. unfold BitMap.numBits, BitMap.create in Hm.
    now rewrite repeat_length in Hm.
  - apply (counted_run l _ (counted_new n w0 st0 mem)). exact Hm.
Qed.

(** X6.  Only [getPID] allocates: a PID that is allocated after a step was
    allocated before it, unless the step is [getPID] and the PID is the
    one it returned.  So the status of a PID that is not allocated stays
    -1 through every other step. *)
Theorem only_getPID_allocates st pid s :
  member pid s = false ->
  (st = SGetPID -> value_of (getPID s) <> pid) ->
  member pid (step st s) = false /\ getStatus pid (step st s) = GONE.
Proof.
  intros Hm Hst.
  assert (H : member pid (step st s) = false);
    [|split; [exact H | now apply getStatus_not_member]].
  unfold member in *.
  destruct st as [|p|pcb p|p|p cur|p cur|pcb v]; cbn [step].
  - specialize (Hst eq_refl). rewrite getPID_eq in Hst |- *.
    unfold value_of, state_of, BitMap.Find in *. cbn [fst snd] in *.
    destruct (BitMap.first_clear (processesBitMap s)) as [i|] eqn:F;
      cbn [fst snd] in *; [|exact Hm].
    destruct (Test_Find_found _ _ F) as (_ & _ & Hother).
    rewrite Hother by congruence. exact Hm.
  - rewrite clearPID_eq. unfold state_of. cbn.
    rewrite member_drop. unfold member. now rewrite Hm.
  - exact Hm.
  - unfold broadcast. destruct (pcbList s p); [|exact Hm].
    cbv [bind store_status gets state_of fst snd]. cbn.
    now destruct (conditionList s p).
  - now rewrite join_enter_eq.
  - rewrite join_leave_eq. unfold state_of. cbn.
    rewrite member_drop. unfold member. now rewrite Hm.
  - exact Hm.
Qed.

(** ** Publishing a status *)

Lemma broadcast_eq pid s pcb :
  pcbList s pid = Some pcb ->
  broadcast pid s =
  Some (tt,
        mkState (processesBitMap s) (pcbList s) (conditionList s) (lockList s)
          (upd (pcbStatuses s) pid (pcbMem s pcb)) (processesWaitingOnPID s)
          (pcbMem s),
        EvStatus pid ::
        match conditionList s pid with
        | Some _ => [EvBroadcast pid]
        | None => []
        end).
Proof.
  intros H. unfold broadcast. rewrite H.
  cbv [bind store_status gets emit ret]. cbn.
  now destruct (conditionList s pid).
Qed.

(** X7.  For an allocated PID with a PCB registered, [broadcast] makes
    [getStatus] report the status the PCB has at that moment; what the
    owner writes into the PCB afterwards is not seen until the next
    [broadcast], and the status of no other PID changes. *)
Theorem broadcast_publishes_status pid s pcb :
  member pid s = true ->
  pcbList s pid = Some pcb ->
  exists r,
    broadcast pid s = Some r /\
    getStatus pid (state_of r) = pcbMem s pcb /\
    (forall v,
       getStatus pid (state_of (store_pcb_status pcb v (state_of r)))
       = pcbMem s pcb) /\
    (forall q, q <> pid -> getStatus q (state_of r) = getStatus q s).
Proof.
  intros Hm Hpcb. eexists. split; [exact (broadcast_eq _ _ _ Hpcb)|].
  unfold getStatus, state_of, member in *. cbn. rewrite Hm. cbn.
  rewrite upd_same. repeat split.
  intros q Hq. now rewrite upd_other.
Qed.


(** ** The monitor objects *)

Lemma paired_step st s :
  (forall pid, conditionList s pid = None <-> lockList s pid = None) ->
  forall pid,
    conditionList (step st s) pid = None <-> lockList (step st s) pid = None.
Proof.
  intros Hp. destruct st as [|p|pcb p|p|p cur|p cur|pcb v]; cbn [step].
  - now rewrite getPID_eq.
  - now rewrite clearPID_eq.
  - exact Hp.
  - destruct (pcbList s p) as [pcb|] eqn:E; [|unfold broadcast; now rewrite E].
    now rewrite (broadcast_eq _ _ _ E).
  - rewrite join_enter_eq. unfold state_of. cbn. intros pid.
    specialize (Hp pid).
    destruct (Z.eq_dec pid p) as [->|Hne].
    + destruct (conditionList s p) eqn:Ec, (lockList s p) eqn:El;
        rewrite ?upd_same, ?Ec, ?El; split; intros H; discriminate.
    + destruct (conditionList s p) eqn:Ec, (lockList s p) eqn:El;
        rewrite ?upd_other by assumption; exact Hp.
  - now rewrite join_leave_eq.
  - exact Hp.
Qed.

Lemma objects_kept_step st s pid :
  (lockList s pid <> None -> lockList (step st s) pid <> None) /\
  (conditionList s pid <> None -> conditionList (step st s) pid <> None).
Proof.
  destruct st as [|p|pcb p|p|p cur|p cur|pcb v]; cbn [step].
  - now rewrite getPID_eq.
  - now rewrite clearPID_eq.
  - now split.
  - destruct (pcbList s p) as [pcb|] eqn:E;
      [|unfold broadcast; rewrite E; now split].
    now rewrite (broadcast_eq _ _ _ E).
  - rewrite join_enter_eq. unfold state_of. cbn.
    destruct (Z.eq_dec pid p) as [->|Hne].
    + destruct (conditionList s p) eqn:Ec, (lockList s p) eqn:El;
        rewrite ?upd_same, ?Ec, ?El; split; congruence.
    + destruct (conditionList s p) eqn:Ec, (lockList s p) eqn:El;
        rewrite ?upd_other by assumption; now split.
  - now rewrite join_leave_eq.
  - now split.
Qed.

Lemma paired_run l : forall s,
  (forall pid, conditionList s pid = None <-> lockList s pid = None) ->
  forall pid,
    conditionList (run l s) pid = None <-> lockList (run l s) pid = None.
Proof.
  induction l as [|st l IH]; intros s H; [exact H|].
  cbn. apply IH. now apply paired_step.
Qed.

(** X9.  In every state the manager reaches from its constructor, a PID
    has a condition variable exactly when it has a lock, so [broadcast]
    never passes a NULL lock to [Broadcast]; and no step takes away a
    lock or a condition variable once it exists. *)
Theorem monitor_objects_paired_and_kept n w0 st0 mem l :
  let s := run l (ProcessManager_new n w0 st0 mem) in
  (forall pid, conditionList s pid = None <-> lockList s pid = None) /\
  (forall st pid,
     (lockList s pid <> None -> lockList (step st s) pid <> None) /\
     (conditionList s pid <> None -> conditionList (step st s) pid <> None)) /\
  (forall pid r, broadcast pid s = Some r ->
     In (EvBroadcast pid) (trace_of r) -> lockList s pid <> None).
Proof.
  intros s.
  assert (Hp : forall pid, conditionList s pid = None <-> lockList s pid = None).
  { apply paired_run. cbn. tauto. }
  split; [exact Hp|]. split; [intros st pid; apply objects_kept_step|].
  intros pid r Hb Hin Hlock.
  destruct (pcbList s pid) as [pcb|] eqn:E;
    [|unfold broadcast in Hb; rewrite E in Hb; discriminate].
  apply Hp in Hlock. rewrite (broadcast_eq _ _ _ E) in Hb. injection Hb as <-.
  unfold trace_of in Hin. cbn in Hin. rewrite Hlock in Hin.
  destruct Hin as [Hin|[]]. discriminate.
Qed.

(** ** More on [join] *)

Lemma filter_sync_new_objects pid s : filter is_sync (new_objects pid s) = [].
Proof.
  unfold new_objects.
  destruct (lockList s pid), (conditionList s pid); reflexivity.
Qed.

Lemma filter_sync_repeat pid n :
  filter is_sync (repeat (EvWait pid) n) = repeat (EvWait pid) n.
Proof. induction n as [|n IH]; cbn; [reflexivity|]. now rewrite IH. Qed.

Lemma filter_sync_join_enter pid cur s :
  filter is_sync (trace_of (join_enter pid cur s)) = [EvAcquire pid].
Proof.
  rewrite join_enter_eq. unfold trace_of. cbn [snd].
  now rewrite filter_app, filter_sync_new_objects.
Qed.

(** X10.  The calls [join] makes on the monitor of its PID: when it
    returns, one [Acquire], then one [Wait] per wakeup it needed, then one
    [Release]; when it does not return, one [Acquire] followed by [Wait]s
    only, the last of which it is still in.  It touches the monitor of no
    other PID. *)
Theorem join_sync_trace pid cur sched s :
  (forall s' tr, join pid cur sched s = Returned s' tr ->
     exists n, (n <= List.length sched)%nat /\
       filter is_sync tr
       = EvAcquire pid :: repeat (EvWait pid) n ++ [EvRelease pid]) /\
  (forall s2 tr, join pid cur sched s = Blocked s2 tr ->
     filter is_sync tr
     = EvAcquire pid :: repeat (EvWait pid) (S (List.length sched))).
Proof.
  rewrite join_eq. split.
  - intros s' tr H. destruct (negb (pid =? 0)).
    + destruct (wait_loop pid sched (state_of (join_enter pid cur s)))
        as [s2 t2|s2 t2] eqn:W; [|discriminate].
      injection H as <- <-.
      destruct (wait_loop_Returned _ _ _ _ _ W) as (n & Hn & _ & _ & _ & ->).
      exists n. split; [exact Hn|].
      rewrite !filter_app, filter_sync_join_enter, filter_sync_repeat.
      now rewrite join_leave_eq.
    + injection H as <- <-. exists 0%nat. split; [lia|].
      rewrite !filter_app, filter_sync_join_enter. now rewrite join_leave_eq.
  - intros s2 tr H. destruct (negb (pid =? 0)); [|discriminate].
    destruct (wait_loop pid sched (state_of (join_enter pid cur s)))
      as [s3 t3|s3 t3] eqn:W; [discriminate|].
    injection H as <- <-.
    destruct (wait_loop_Blocked _ _ _ _ _ W) as (_ & _ & ->).
    now rewrite filter_app, filter_sync_join_enter, filter_sync_repeat.
Qed.

Lemma getStatus_join_enter q pid cur s :
  getStatus q (state_of (join_enter pid cur s)) = getStatus q s.
Proof. now rewrite join_enter_eq. Qed.

(** X11.  A caller of [join] that has to wait, on a PID other than 0 whose
    status is not -1, is suspended in a state in which the lock and the
    condition variable of the PID exist, the waiter count of the PID is
    one more than before, the PCB of the caller is marked [P_BLOCKED], and
    the bitmap and the cached statuses are as before. *)
Theorem join_suspended_holds_reference pid cur s :
  pid <> 0 ->
  getStatus pid s <> GONE ->
  exists s2 tr,
    join pid cur [] s = Blocked s2 tr /\
    filter is_sync tr = [EvAcquire pid; EvWait pid] /\
    processesWaitingOnPID s2 pid = processesWaitingOnPID s pid + 1 /\
    (forall q, q <> pid ->
       processesWaitingOnPID s2 q = processesWaitingOnPID s q) /\
    pcbMem s2 cur = P_BLOCKED /\
    lockList s2 pid <> None /\
    conditionList s2 pid <> None /\
    processesBitMap s2 = processesBitMap s /\
    pcbStatuses s2 = pcbStatuses s.
Proof.
  intros Hpid Hst. apply Z.eqb_neq in Hpid.
  rewrite join_eq, Hpid. cbn [negb wait_loop].
  rewrite getStatus_join_enter.
  destruct (Z.eqb_spec (getStatus pid s) (-1)) as [E|_]; [contradiction|].
  eexists; eexists. split; [reflexivity|].
  rewrite filter_app, filter_sync_join_enter.
  rewrite join_enter_eq. unfold state_of. cbn.
  rewrite upd_same. unfold upd_mem. rewrite Nat.eqb_refl.
  repeat split.
  - intros q Hq. now apply upd_other.
  - destruct (lockList s pid) eqn:E; [now rewrite E | now rewrite upd_same].
  - destruct (conditionList s pid) eqn:E;
      [now rewrite E | now rewrite upd_same].
Qed.

Lemma woken_releases pid k : forall m s,
  (k <= m)%nat ->
  member pid s = true ->
  let t := woken k (repeat (release pid) m) s in
  (Z.of_nat k < processesWaitingOnPID s pid ->
   member pid t = true /\
   processesWaitingOnPID t pid = processesWaitingOnPID s pid - Z.of_nat k /\
   pcbStatuses t pid = pcbStatuses s pid) /\
  (Z.of_nat k = processesWaitingOnPID s pid -> (1 <= k)%nat ->
   member pid t = false /\ processesWaitingOnPID t pid = 0).
Proof.
  induction k as [|k IH]; intros m s Hk Hm; cbn zeta.
  - cbn. split; [intros _; repeat split; [assumption | lia] | lia].
  - destruct m as [|m]; [lia|]. cbn [repeat]. rewrite woken_S.
    assert (Hrel : processesWaitingOnPID (release pid s) pid
                   = processesWaitingOnPID s pid - 1 /\
                   pcbStatuses (release pid s) pid = pcbStatuses s pid /\
                   member pid (release pid s)
                   = negb (processesWaitingOnPID s pid =? 1)).
    { unfold release. rewrite clearPID_eq. unfold state_of, member. cbn.
      rewrite upd_same, member_drop, Hm, Z.eqb_refl. now repeat split. }
    destruct Hrel as (Hc & Hs & Hmem).
    destruct (Z.eqb_spec (processesWaitingOnPID s pid) 1) as [E1|E1];
      cbn [negb] in Hmem.
    + split; [lia|]. intros Hcount _. assert (k = 0)%nat by lia. subst k.
      cbn. split; [exact Hmem | lia].
    + destruct (IH m (release pid s) ltac:(lia) Hmem) as [IH1 IH2].
      cbn zeta in IH1, IH2. rewrite Hc, Hs in *. split.
      * intros Hlt. destruct IH1 as (H1 & H2 & H3); [lia|].
        repeat split; [assumption | lia | assumption].
      * intros Heq _. apply IH2; lia.
Qed.

(** X12.  While a caller sleeps in [join] on an allocated PID whose cached
    status is not -1, calls of [clearPID] on that PID by other threads do
    not end the wait as long as there are no more of them than the waiter
    count held before the [join]: the PID stays allocated.  One release
    more empties the count and reclaims the PID; the joiner then returns,
    and its own decrement leaves the count at -1. *)
Theorem join_outlasts_releases pid cur m c s :
  pid <> 0 ->
  member pid s = true ->
  pcbStatuses s pid <> GONE ->
  processesWaitingOnPID s pid = Z.of_nat c ->
  let sched := repeat (release pid) m in
  ((m <= c)%nat ->
   exists s2 tr,
     join pid cur sched s = Blocked s2 tr /\
     member pid s2 = true /\
     processesWaitingOnPID s2 pid = Z.of_nat c + 1 - Z.of_nat m) /\
  ((c < m)%nat ->
   exists s' tr,
     join pid cur sched s = Returned s' tr /\
     filter is_wait tr = repeat (EvWait pid) (S c) /\
     member pid s' = false /\
     processesWaitingOnPID s' pid = -1).
Proof.
  intros Hpid Hm Hst Hc sched. pose proof Hpid as Hpid'.
  apply Z.eqb_neq in Hpid. rewrite join_eq, Hpid. cbn [negb].
  set (s1 := state_of (join_enter pid cur s)).
  assert (Hm1 : member pid s1 = true)
    by (unfold s1; now rewrite member_join_enter).
  assert (Hc1 : processesWaitingOnPID s1 pid = Z.of_nat c + 1).
  { unfold s1. rewrite join_enter_eq. unfold state_of. cbn.
    rewrite upd_same. lia. }
  assert (Hs1 : pcbStatuses s1 pid = pcbStatuses s pid)
    by (unfold s1; now rewrite join_enter_eq).
  assert (Hlive : forall k, (k <= m)%nat -> (k <= c)%nat ->
            getStatus pid (woken k sched s1) <> GONE).
  { intros k Hkm Hkc.
    destruct (woken_releases pid k m s1 Hkm Hm1) as [H _].
    destruct H as (H1 & _ & H3); [lia|].
    unfold getStatus. unfold member in H1. fold sched in H1, H3.
    rewrite H1. cbn. congruence. }
  assert (Hlen : List.length sched = m) by apply repeat_length.
  split.
  - intros Hmc.
    destruct (wait_loop pid sched s1) as [s2 t2|s2 t2] eqn:W.
    + destruct (wait_loop_Returned _ _ _ _ _ W) as (n & Hn & -> & Hg & _).
      rewrite Hlen in Hn. destruct (Hlive n Hn ltac:(lia) Hg).
    + destruct (wait_loop_Blocked _ _ _ _ _ W) as (-> & _ & _).
      rewrite Hlen.
      destruct (woken_releases pid m m s1 (le_n m) Hm1) as [H _].
      destruct H as (H1 & H2 & _); [lia|]. fold sched in H1, H2.
      eexists; eexists. split; [reflexivity|]. split; [exact H1 | lia].
  - intros Hcm.
    destruct (woken_releases pid (S c) m s1 ltac:(lia) Hm1) as [_ H].
    destruct H as (Hgone & Hzero); [lia | lia |]. fold sched in Hgone, Hzero.
    destruct (wait_loop pid sched s1) as [s2 t2|s2 t2] eqn:W.
    + destruct (wait_loop_Returned _ _ _ _ _ W) as (n & Hn & -> & Hg & Hk & ->).
      assert (n = S c).
      { destruct (Nat.lt_trichotomy n (S c)) as [Hlt|[Heq|Hgt]].
        - destruct (Hlive n ltac:(lia) ltac:(lia) Hg).
        - exact Heq.
        - destruct (Hk (S c) Hgt). now apply getStatus_not_member. }
      subst n. eexists; eexists. split; [reflexivity|].
      rewrite !filter_app, filter_wait_join_enter, filter_wait_join_leave,
        filter_wait_repeat, app_nil_r.
      split; [reflexivity|].
      revert Hgone Hzero. generalize (woken (S c) sched s1).
      intros t Hgone Hzero.
      rewrite join_leave_eq. unfold state_of, member. cbn.
      rewrite upd_same, Hzero. cbn. unfold member in Hgone.
      split; [exact Hgone | reflexivity].
    + destruct (wait_loop_Blocked _ _ _ _ _ W) as (_ & Hk & _).
      rewrite Hlen in Hk. destruct (Hk (S c) ltac:(lia)).
      now apply getStatus_not_member.
Qed.

(** X13.  [join] on an allocated PID whose cached status is -1 (a process
    that has exited with -1, say) returns without a single [Wait] and
    without reclaiming the PID: the PID stays allocated with the waiter
    count it had. *)
Theorem join_on_finished_pid_passes pid cur sched s :
  member pid s = true ->
  pcbStatuses s pid = GONE ->
  1 <= processesWaitingOnPID s pid ->
  exists s' tr,
    join pid cur sched s = Returned s' tr /\
    filter is_wait tr = [] /\
    processesBitMap s' = processesBitMap s /\
    (forall q, processesWaitingOnPID s' q = processesWaitingOnPID s q) /\
    pcbStatuses s' = pcbStatuses s.
Proof.
  intros Hm Hst Hc.
  assert (Hgone : getStatus pid (state_of (join_enter pid cur s)) = GONE).
  { rewrite getStatus_join_enter. unfold getStatus. unfold member in Hm.
    now rewrite Hm. }
  destruct (join_pass_state pid cur s) as (Hw & Hs & _ & Hbm).
  eexists; eexists. split; [apply join_no_wait; now right|].
  rewrite filter_app, filter_wait_join_enter, filter_wait_join_leave.
  repeat split; try assumption.
  rewrite Hbm. destruct (Z.eqb_spec (processesWaitingOnPID s pid) 0); [lia|].
  reflexivity.
Qed.

End Join.

(** ** The theorems at work *)

Lemma join_returns_only_when_gone_witness :
  1 <> 0 /\
  exists s' tr,
    join 2 3 1 7%nat wake_then_release two_live = Returned s' tr /\
    getStatus 1 s' = GONE.
Proof.
  split; [lia|].
  destruct (join_returns_only_when_gone 2 3 1 7%nat wake_then_release two_live
              ltac:(lia)) as [H _].
  destruct (join 2 3 1 7%nat wake_then_release two_live) as [s' tr|s' tr] eqn:E.
  - exists s', tr. split; [reflexivity|].
    destruct (H s' tr eq_refl) as (n & _ & _ & _ & _ & _ & Hg). exact Hg.
  - vm_compute in E. discriminate E.
Defined.

Lemma join_on_free_pid_passes_witness :
  member 1 fresh2 = false /\
  exists s' tr,
    join 2 3 1 7%nat wake_then_release fresh2 = Returned s' tr /\
    filter is_wait tr = [] /\
    processesWaitingOnPID s' 1 = processesWaitingOnPID fresh2 1 /\
    member 1 s' = member 1 fresh2.
Proof.
  split; [reflexivity|].
  destruct (join_on_free_pid_passes 2 3 1 7%nat wake_then_release fresh2
              eq_refl) as (s' & tr & H1 & H2 & H3 & H4 & _).
  exists s', tr. repeat split; assumption.
Defined.

Lemma broadcast_copies_then_wakes_witness :
  pcbList exited 0 = Some 5%nat /\
  exists s',
    broadcast 0 exited = Some (tt, s', [EvStatus 0]) /\
    pcbStatuses s' 0 = -1.
Proof.
  split; [reflexivity|].
  destruct (broadcast_copies_then_wakes 0 exited 5%nat eq_refl)
    as (s' & H1 & H2 & _).
  exists s'. split; [exact H1 | exact H2].
Defined.

Lemma waiter_count_governs_removal_witness :
  member 1 two_live = true /\
  (member 1 (step 2 3 (SClearPID 1) two_live) = false <->
   processesWaitingOnPID two_live 1 = 1 /\
   processesWaitingOnPID (step 2 3 (SClearPID 1) two_live) 1 = 0).
Proof.
  split; [reflexivity|].
  destruct (waiter_count_governs_removal 2 3) as (_ & H & _).
  exact (proj1 (H [] two_live (SClearPID 1) 1 eq_refl)).
Defined.

Lemma getStatus_spec_witness :
  member 1 two_live = true /\ pcbStatuses two_live 1 <> GONE /\
  getStatus 1 two_live = pcbStatuses two_live 1 /\
  (getStatus 1 two_live = GONE <-> member 1 two_live = false).
Proof.
  destruct (getStatus_spec 1 two_live) as (_ & H2 & _ & H4).
  split; [reflexivity|]. split; [discriminate|].
  split; [exact (H2 eq_refl) | apply H4; discriminate].
Defined.

Lemma waiter_stores_and_locks_witness :
  broadcast 0 exited = Some (tt, exited_cached, [EvStatus 0]) /\
  (forall q, ~ In (EvWaiters q) [EvStatus 0]) /\
  guarded [] (outcome_trace (join 2 3 1 7%nat wake_then_release two_live))
  = true.
Proof.
  destruct (waiter_stores_and_locks 2 3 0 7%nat [] exited) as (_ & _ & H & _).
  destruct (H (tt, exited_cached, [EvStatus 0]) eq_refl) as [Hq _].
  split; [reflexivity|]. split; [exact Hq|].
  exact (proj1 (waiter_stores_and_locks 2 3 1 7%nat wake_then_release two_live)).
Defined.

(** ** Where the code departs from the written contract *)

(** C4.  Released twice, PID 0 has a waiter count of -1: the second
    [clearPID] finds the count at 0 and decrements it all the same. *)
Lemma clearPID_at_zero_decrements :
  processesWaitingOnPID released_once 0 = 0 /\
  value_of (clearPID 0 released_once) = tt /\
  processesWaitingOnPID (state_of (clearPID 0 released_once)) 0 = -1.
Proof. repeat split. Qed.

(** C5.  PID 0 is allocated and the status cached for it is -1: the
    status query answers with the sentinel for a PID that is in the
    bitmap. *)
Lemma getStatus_gone_for_allocated_pid :
  member 0 exited_cached = true /\
  getStatus 0 exited_cached = GONE /\
  ~ (getStatus 0 exited_cached = GONE <-> member 0 exited_cached = false).
Proof.
  repeat split. intros [H _]. specialize (H eq_refl). discriminate.
Qed.

(** C8.  A second [addProcess] on an allocated PID whose slot holds a PCB
    replaces the pointer; there is no failure. *)
Lemma addProcess_replaces_live_pcb :
  member 0 registered = true /\
  pcbList registered 0 = Some 5%nat /\
  value_of (addProcess (Some 6%nat) 0 registered) = tt /\
  pcbList (state_of (addProcess (Some 6%nat) 0 registered)) 0 = Some 6%nat.
Proof. repeat split. Qed.

(** C9.  On a fresh manager no lock exists, yet [getPID] and [clearPID]
    store into the waiter count of PID 0: their traces are not guarded. *)
Lemma waiters_stored_without_lock :
  lockList fresh2 0 = None /\
  value_of (getPID fresh2) = 0 /\
  processesWaitingOnPID (state_of (getPID fresh2)) 0 = 1 /\
  guarded [] (trace_of (getPID fresh2)) = false /\
  lockList (state_of (getPID fresh2)) 0 = None /\
  processesWaitingOnPID (state_of (clearPID 0 (state_of (getPID fresh2)))) 0
  = 0 /\
  guarded [] (trace_of (clearPID 0 (state_of (getPID fresh2)))) = false.
Proof. repeat split. Qed.

(** ** Further examples *)

Lemma getPID_returns_lowest_free_witness :
  0 <= 1 < BitMap.numBits (processesBitMap fresh2) /\
  member 1 fresh2 = false /\
  value_of (getPID fresh2) = 0 /\
  member 0 (state_of (getPID fresh2)) = true.
Proof.
  assert (Hr : 0 <= 1 < BitMap.numBits (processesBitMap fresh2))
    by (cbn; lia).
  destruct (getPID_returns_lowest_free fresh2 1 Hr eq_refl)
    as (_ & _ & Hm & _).
  split; [exact Hr|]. split; [reflexivity|]. split; [reflexivity | exact Hm].
Defined.

Lemma allocate_n_sequence_witness :
  (1 <= 2)%nat /\
  fst (allocate_n 1 fresh2) = [0] /\
  member 0 (snd (allocate_n 1 fresh2)) = true /\
  member 1 (snd (allocate_n 1 fresh2)) = false.
Proof.
  assert (Hk : (1 <= 2)%nat) by lia.
  destruct (allocate_n_sequence 2 1 (fun _ => 0) (fun _ => 0) (fun _ => 0) Hk)
    as (H1 & H2 & _).
  split; [exact Hk|]. split; [exact H1|].
  split; [exact (H2 0) | exact (H2 1)].
Defined.

Lemma allocated_pids_in_range_and_counted_witness :
  member 0 (run 2 3 [SGetPID; SJoinEnter 0 7%nat] fresh2) = true /\
  0 <= 0 < 2 /\
  1 <= processesWaitingOnPID (run 2 3 [SGetPID; SJoinEnter 0 7%nat] fresh2) 0.
Proof.
  split; [reflexivity|].
  exact (allocated_pids_in_range_and_counted 2 3 2 (fun _ => 0) (fun _ => 0)
           (fun _ => 0) [SGetPID; SJoinEnter 0 7%nat] 0 eq_refl).
Defined.

Lemma only_getPID_allocates_witness :
  member 1 registered = false /\
  member 1 (step 2 3 (SClearPID 0) registered) = false /\
  getStatus 1 (step 2 3 (SClearPID 0) registered) = GONE.
Proof.
  split; [reflexivity|].
  apply (only_getPID_allocates 2 3 (SClearPID 0) 1 registered eq_refl).
  discriminate.
Defined.

Lemma broadcast_publishes_status_witness :
  member 0 exited = true /\
  pcbList exited 0 = Some 5%nat /\
  exists r, broadcast 0 exited = Some r /\ getStatus 0 (state_of r) = -1.
Proof.
  split; [reflexivity|]. split; [reflexivity|].
  destruct (broadcast_publishes_status 0 exited 5%nat eq_refl eq_refl)
    as (r & Hb & Hs & _).
  exists r. split; [exact Hb | exact Hs].
Defined.

Lemma join_suspended_holds_reference_witness :
  1 <> 0 /\
  getStatus 1 two_live <> GONE /\
  exists s2 tr,
    join 2 3 1 7%nat [] two_live = Blocked s2 tr /\
    processesWaitingOnPID s2 1 = processesWaitingOnPID two_live 1 + 1 /\
    pcbMem s2 7%nat = 3.
Proof.
  assert (Hp : 1 <> 0) by lia.
  assert (Hs : getStatus 1 two_live <> GONE) by (vm_compute; discriminate).
  destruct (join_suspended_holds_reference 2 3 1 7%nat two_live Hp Hs)
    as (s2 & tr & Hj & _ & Hc & _ & Hb & _).
  split; [exact Hp|]. split; [exact Hs|].
  exists s2, tr. split; [exact Hj|]. split; [exact Hc | exact Hb].
Defined.

Lemma join_outlasts_releases_witness :
  1 <> 0 /\ member 1 two_live = true /\ pcbStatuses two_live 1 <> GONE /\
  processesWaitingOnPID two_live 1 = Z.of_nat 1 /\
  (exists s2 tr,
     join 2 3 1 7%nat (repeat (release 1) 1) two_live = Blocked s2 tr /\
     member 1 s2 = true) /\
  (exists s' tr,
     join 2 3 1 7%nat (repeat (release 1) 2) two_live = Returned s' tr /\
     member 1 s' = false).
Proof.
  assert (Hp : 1 <> 0) by lia.
  assert (Hs : pcbStatuses two_live 1 <> GONE) by (vm_compute; discriminate).
  split; [exact Hp|]. split; [reflexivity|]. split; [exact Hs|].
  split; [reflexivity|]. split.
  - destruct (join_outlasts_releases 2 3 1 7%nat 1 1 two_live Hp eq_refl Hs
                eq_refl) as [H _].
    destruct (H (le_n 1)) as (s2 & tr & Hj & Hm & _).
    exists s2, tr. split; [exact Hj | exact Hm].
  - destruct (join_outlasts_releases 2 3 1 7%nat 2 1 two_live Hp eq_refl Hs
                eq_refl) as [_ H].
    destruct (H (le_n 2)) as (s' & tr & Hj & _ & Hm & _).
    exists s', tr. split; [exact Hj | exact Hm].
Defined.

Lemma join_on_finished_pid_passes_witness :
  member 1 finished_one = true /\
  pcbStatuses finished_one 1 = GONE /\
  1 <= processesWaitingOnPID finished_one 1 /\
  exists s' tr,
    join 2 3 1 7%nat wake_then_release finished_one = Returned s' tr /\
    filter is_wait tr = [] /\
    processesBitMap s' = processesBitMap finished_one.
Proof.
  assert (Hc : 1 <= processesWaitingOnPID finished_one 1)
    by (vm_compute; discriminate).
  destruct (join_on_finished_pid_passes 2 3 1 7%nat wake_then_release
              finished_one eq_refl eq_refl Hc) as (s' & tr & Hj & Hw & Hb & _).
  split; [reflexivity|]. split; [reflexivity|]. split; [exact Hc|].
  exists s', tr. split; [exact Hj|]. split; [exact Hw | exact Hb].
Defined.
